(** * PipeVision: CAD ingestion, classification and geometry export

    A shallow embedding of the processing core of PipeVision
    ([app/processing/dwg_parser.py], [app/processing/exporters.py],
    [app/processing/fbx_exporter.py]) together with the properties its
    specification states about it.

    Conventions of the embedding:
    - a Python [float] is a binary64 number, here Rocq's primitive [float];
      comparisons are the IEEE ones ([nan] compares false with everything);
    - a Python [str] is a [string] whose characters are the code points
      0 to 255; [upper] is [str.upper] on ASCII strings only, and every
      statement that depends on it is restricted to ASCII names
      ([is_ascii]);
    - a [dict] used as a map is a [gmap]; a [dict] whose iteration order
      matters (the keyword table) is an association list in insertion order;
    - [Optional[T]] is [option T]; a function that may raise inside a
      [try ... except] returns [option] and the handler's result is written
      where the source catches;
    - in-place mutation (the classifier writing [suggested_type]) is explicit
      state passing: the function returns the updated list;
    - what the tool-mediated adapter does to the file system and to other
      programs is the list of its calls, in the order it makes them,
      returned next to its result. *)

From Stdlib Require Import ZArith List String Ascii Bool Floats.
From stdpp Require Import gmap strings list fin_maps.

Open Scope string_scope.
Open Scope list_scope.

(* Decimal literals denote the nearest binary64 value, as in Python. *)
Set Warnings "-inexact-float".

(** ** Python builtins used by the code *)

Module Py.

(** [s.isascii()]: every code point is below 128. *)
Fixpoint is_ascii (s : string) : bool :=
  match s with
  | EmptyString => true
  | String c s' => Nat.ltb (nat_of_ascii c) 128 && is_ascii s'
  end.

(** [c.upper()] on one ASCII character. *)
Definition upper_ascii (c : ascii) : ascii :=
  let n := nat_of_ascii c in
  if Nat.leb 97 n && Nat.leb n 122 then ascii_of_nat (n - 32) else c.

(** [s.upper()] for an ASCII [s].  Outside ASCII [str.upper] changes
    characters this function leaves alone and may lengthen the string
    (a sharp s becomes SS), so the result is [s.upper()] only when
    [is_ascii s] holds. *)
Fixpoint upper (s : string) : string :=
  match s with
  | EmptyString => EmptyString
  | String c s' => String (upper_ascii c) (upper s')
  end.

(** [kw in s] on strings: [kw] occurs in [s] as a contiguous substring. *)
Fixpoint str_in (kw s : string) : bool :=
  if String.prefix kw s then true
  else match s with
       | EmptyString => false
       | String _ s' => str_in kw s'
       end.

(** [s.lstrip(c)] for a single character [c]. *)
Fixpoint lstrip (c : ascii) (s : string) : string :=
  match s with
  | String d s' => if Ascii.eqb c d then lstrip c s' else s
  | EmptyString => EmptyString
  end.

(** [s[i:j]] for [0 <= i <= j]. *)
Definition slice (i j : nat) (s : string) : string :=
  String.substring i (j - i) s.

(** [s.replace(old, new)] for a non-empty [old]: every non-overlapping
    occurrence, leftmost first.  [skip] counts the characters of a matched
    occurrence still to be dropped. *)
Fixpoint replace_from (old new s : string) (skip : nat) : string :=
  match s with
  | EmptyString => EmptyString
  | String c s' =>
      match skip with
      | S k => replace_from old new s' k
      | O =>
          if String.prefix old s
          then String.append new (replace_from old new s' (String.length old - 1))
          else String c (replace_from old new s' 0)
      end
  end.

Definition replace (old new s : string) : string := replace_from old new s 0.

(** Truth value of a float: everything but [0.0] and [-0.0] is truthy
    ([nan] included). *)
Definition truthy (x : float) : bool := negb (x =? 0)%float.

(** [x or d] for [x : Optional[float]]. *)
Definition or_float (x : option float) (d : float) : float :=
  match x with
  | Some v => if truthy v then v else d
  | None => d
  end.

(** [x or d] for [x : Optional[str]]. *)
Definition or_str (x : option string) (d : string) : string :=
  match x with
  | Some EmptyString | None => d
  | Some v => v
  end.

(** [any(...)] over a list is [existsb]; [min]/[max] keep the first
    extremal element, comparing with [<] and [>]. *)
Definition py_min (x : float) (l : list float) : float :=
  fold_left (fun m y => if (y <? m)%float then y else m) l x.
Definition py_max (x : float) (l : list float) : float :=
  fold_left (fun m y => if (m <? y)%float then y else m) l x.

End Py.

(** ** The drawing parser ([dwg_parser.py]) *)

Module DwgParser.
Import Py.

Definition point : Type := float * float * float.
Definition pz (p : point) : float := snd p.

(** A value of the free-form [properties] dictionary. *)
Inductive prop_value :=
| PBool (b : bool)
| PNum (x : float).

Record ExtractedEntity := mkEntity {
  handle : string;
  entity_type : string;
  layer : string;
  points : list point;
  properties : list (string * prop_value);
  suggested_type : option string;
  has_depth : bool;
  depth_values : list float
}.

Definition set_suggested_type (e : ExtractedEntity) (t : option string) :=
  {| handle := handle e; entity_type := entity_type e; layer := layer e;
     points := points e; properties := properties e;
     suggested_type := t;
     has_depth := has_depth e; depth_values := depth_values e |}.

(** One entry of [result.layers]. *)
Record Layer := mkLayer {
  name : string;
  color : Z;
  is_on : bool;
  is_frozen : bool;
  linetype : string
}.

(** What the CAD-geometry library hands over for one modelspace entity,
    by the first [isinstance] test of [_extract_single_entity] it passes:
    [Circle] is an entity that passes [isinstance(entity, Circle)] after
    failing the three tests before it (an arc too, where the library derives
    its arc class from its circle class); [Arc] is an entity that reaches
    and passes [isinstance(entity, Arc)].  [Faulty] is an entity whose
    attribute access raises; [Other] is any primitive that passes none of
    the tests. *)
Inductive DxfEntity :=
| Line (h lay : string) (start end_ : point)
| LWPolyline (h lay : string) (xy : list (float * float)) (closed : bool)
| Polyline (h lay : string) (vertices : list point) (is_closed : bool)
| Circle (h lay : string) (center : point) (radius : float)
| Arc (h lay : string) (center : point) (radius start_angle end_angle : float)
| Insert (h lay : string) (block_name : string) (rotation : float)
| Other (h lay : string) (dxftype : string)
| Faulty.

(** The parsed document.  [ucs_rotation] is
    [degrees(atan2(ucsxdir[1], ucsxdir[0]))] when the header carries a
    truthy [$UCSXDIR]; [crs_header] is the first of the three header
    variables present, if any. *)
Record Drawing := mkDrawing {
  dxfversion : string;
  insunits : Z;
  doc_layers : list Layer;
  modelspace : list DxfEntity;
  geodata : option string;
  crs_header : option string;
  ucs_rotation : option float
}.

Record ParseResult := mkResult {
  success : bool;
  filename : string;
  dxf_version : option string;
  units : option string;
  has_crs : bool;
  detected_crs : option string;
  r_has_depth : bool;
  has_rotation : bool;
  rotation_degrees : float;
  layers : list Layer;
  entities : list ExtractedEntity;
  bounds : option (float * float * float * float);
  missing_fields : list string;
  errors : list string
}.

(** The keyword table, in the order the source writes it. *)
Definition ASSET_TYPE_KEYWORDS : list (string * list string) :=
  [ ("sewer",    ["sewer"; "san"; "sanitary"; "ss"; "swr"]);
    ("storm",    ["storm"; "drain"; "sd"; "stm"; "drainage"]);
    ("potable",  ["water"; "potable"; "wtr"; "wm"; "domestic"]);
    ("gas",      ["gas"; "natural"; "ng"; "fuel"]);
    ("electric", ["electric"; "elec"; "power"; "hv"; "lv"; "mv"]);
    ("telecom",  ["telecom"; "telephone"; "tel"; "comm"; "cable"]);
    ("fiber",    ["fiber"; "fibre"; "fo"; "optical"]) ].

Definition _get_units (doc : Drawing) : option string :=
  Some (match insunits doc with
        | 0 => "unitless" | 1 => "inches" | 2 => "feet" | 3 => "miles"
        | 4 => "millimeters" | 5 => "centimeters" | 6 => "meters"
        | 7 => "kilometers" | _ => "unknown"
        end%Z).

Definition _extract_layers (doc : Drawing) : list Layer := doc_layers doc.

(** [z_values = [p[2] for p in points if p[2] != 0]], then the record. *)
Definition build_entity (h ty lay : string) (pts : list point)
    (props : list (string * prop_value)) : option ExtractedEntity :=
  match pts with
  | [] => None
  | _ =>
      let z_values := List.filter (fun z => negb (z =? 0)%float) (map pz pts) in
      Some {| handle := h; entity_type := ty; layer := lay; points := pts;
              properties := props; suggested_type := None;
              has_depth := Nat.ltb 0 (length z_values);
              depth_values := z_values |}
  end.

Definition _extract_single_entity (entity : DxfEntity) : option ExtractedEntity :=
  match entity with
  | Line h lay s e => build_entity h "LINE" lay [s; e] []
  | LWPolyline h lay xy closed =>
      build_entity h "LWPOLYLINE" lay
        (map (fun '(x, y) => (x, y, 0%float)) xy) [("closed", PBool closed)]
  | Polyline h lay vs closed =>
      build_entity h "POLYLINE" lay vs [("closed", PBool closed)]
  | Circle h lay c r => build_entity h "CIRCLE" lay [c] [("radius", PNum r)]
  | Arc h lay c r sa ea =>
      build_entity h "ARC" lay [c]
        [("radius", PNum r); ("start_angle", PNum sa); ("end_angle", PNum ea)]
  | Insert _ _ _ _ | Other _ _ _ => None
  | Faulty => None
  end.

Fixpoint _extract_entities_from (msp : list DxfEntity) : list ExtractedEntity :=
  match msp with
  | [] => []
  | entity :: rest =>
      match _extract_single_entity entity with
      | Some extracted => extracted :: _extract_entities_from rest
      | None => _extract_entities_from rest
      end
  end.

Definition _extract_entities (doc : Drawing) : list ExtractedEntity :=
  _extract_entities_from (modelspace doc).

Definition _calculate_bounds (ents : list ExtractedEntity)
    : option (float * float * float * float) :=
  let all_x := flat_map (fun e => map (fun p => fst (fst p)) (points e)) ents in
  let all_y := flat_map (fun e => map (fun p => snd (fst p)) (points e)) ents in
  match all_x, all_y with
  | x :: xs, y :: ys => Some (py_min x xs, py_min y ys, py_max x xs, py_max y ys)
  | _, _ => None
  end.

Definition _detect_crs (doc : Drawing) : bool * option string :=
  match geodata doc with
  | Some cs => (true, Some cs)
  | None =>
      match crs_header doc with
      | Some v => (true, Some v)
      | None => (false, None)
      end
  end.

(** [any(abs(z) > 0.001 for z in entity.depth_values)] for some entity
    with [has_depth] set and a non-empty [depth_values]. *)
Definition _check_depth (ents : list ExtractedEntity) : bool :=
  existsb (fun entity =>
             has_depth entity
             && negb (Nat.eqb (length (depth_values entity)) 0)
             && existsb (fun z => (0.001 <? abs z)%float) (depth_values entity))
          ents.

Definition north_arrow_names : list string :=
  ["NORTH"; "NORTHARROW"; "N_ARROW"; "NORTH_ARROW"].

Fixpoint find_north_arrow (msp : list DxfEntity) : option float :=
  match msp with
  | [] => None
  | Insert _ _ block_name rotation :: rest =>
      if existsb (fun na => str_in na (upper block_name)) north_arrow_names
      then Some rotation
      else find_north_arrow rest
  | _ :: rest => find_north_arrow rest
  end.

Definition _detect_rotation (doc : Drawing) : bool * float :=
  let from_blocks :=
    match find_north_arrow (modelspace doc) with
    | Some r => (true, r)
    | None => (false, 0%float)
    end in
  match ucs_rotation doc with
  | Some rotation =>
      if (0.1 <? abs rotation)%float then (true, rotation) else from_blocks
  | None => from_blocks
  end.

(** Reads the fields of the result as they are at the time of the call. *)
Definition _determine_missing_fields (depth crs rot : bool)
    (ents : list ExtractedEntity) : list string :=
  let has_labels :=
    existsb (fun entity => match suggested_type entity with
                           | Some _ => true
                           | None => false
                           end) ents in
  (if negb depth then ["depth"] else [])
    ++ (if negb crs then ["crs"] else [])
    ++ (if negb rot then ["rotation"] else [])
    ++ (if negb has_labels then ["labels"] else []).

Definition keywords_match (keywords : list string) (layer_name : string) : bool :=
  existsb (fun kw => str_in (upper kw) layer_name) keywords.

(** The inner loop over the table: the first entry with a matching
    keyword, then [break]. *)
Fixpoint first_matching_type (table : list (string * list string))
    (layer_name : string) : option string :=
  match table with
  | [] => None
  | (asset_type, keywords) :: rest =>
      if keywords_match keywords layer_name then Some asset_type
      else first_matching_type rest layer_name
  end.

(** One iteration of the outer loop:
    [layer_types[layer["name"]] = asset_type] when an entry matches. *)
Definition assign (layer_types : gmap string string) (l : Layer) :=
  match first_matching_type ASSET_TYPE_KEYWORDS (upper (name l)) with
  | Some asset_type => <[name l := asset_type]> layer_types
  | None => layer_types
  end.

Definition build_layer_types (lays : list Layer) : gmap string string :=
  fold_left assign lays ∅.

Definition classify_one (layer_types : gmap string string)
    (entity : ExtractedEntity) : ExtractedEntity :=
  match layer_types !! layer entity with
  | Some t => set_suggested_type entity (Some t)
  | None => entity
  end.

Definition _classify_entities (ents : list ExtractedEntity) (lays : list Layer)
    : list ExtractedEntity :=
  map (classify_one (build_layer_types lays)) ents.

(** What opening the file gives.  [Loaded doc] is a document that
    [ezdxf.readfile] returned and whose header, layer table and modelspace
    are read without an exception, so that the body of the [try] runs to
    its end; the handlers' case of an exception raised after some fields of
    the result were assigned is not part of the model. *)
Inductive FileSource :=
| FileMissing
| ConversionFailed
| ReadError (message : string)
| Loaded (doc : Drawing).

Definition failed (fname : string) (errs : list string) : ParseResult :=
  {| success := false; filename := fname; dxf_version := None; units := None;
     has_crs := false; detected_crs := None; r_has_depth := false;
     has_rotation := false; rotation_degrees := 0%float;
     layers := []; entities := []; bounds := None;
     missing_fields := []; errors := errs |}.

(** [DWGParser.parse], statement by statement. *)
Definition parse (fname : string) (src : FileSource) : ParseResult :=
  match src with
  | FileMissing => failed fname [String.append "File not found: " fname]
  | ConversionFailed => failed fname ["Failed to convert DWG to DXF"]
  | ReadError message => failed fname [String.append "DXF parsing error: " message]
  | Loaded doc =>
      let lays := _extract_layers doc in
      let ents := _extract_entities doc in
      let bnds := _calculate_bounds ents in
      let '(crs, detected) := _detect_crs doc in
      let depth := _check_depth ents in
      let '(rot, degrees) := _detect_rotation doc in
      let missing := _determine_missing_fields depth crs rot ents in
      let ents' := _classify_entities ents lays in
      {| success := true; filename := fname;
         dxf_version := Some (dxfversion doc); units := _get_units doc;
         has_crs := crs; detected_crs := detected; r_has_depth := depth;
         has_rotation := rot; rotation_degrees := degrees;
         layers := lays; entities := ents'; bounds := bnds;
         missing_fields := missing; errors := [] |}
  end.

(** The derived fields of an entity as extraction leaves them. *)
Definition fresh (e : ExtractedEntity) : Prop :=
  points e <> []
  /\ suggested_type e = None
  /\ depth_values e = List.filter (fun z => negb (z =? 0)%float) (map pz (points e))
  /\ has_depth e = Nat.ltb 0 (length (depth_values e)).

End DwgParser.

(** ** The persisted records the exporters read ([models.py]) *)

Module Models.

Inductive AssetType :=
| SEWER | STORM | POTABLE | GAS | ELECTRIC | TELECOM | FIBER | UNKNOWN.

(** [asset_type.value]. *)
Definition value (t : AssetType) : string :=
  match t with
  | SEWER => "sewer" | STORM => "storm" | POTABLE => "potable" | GAS => "gas"
  | ELECTRIC => "electric" | TELECOM => "telecom" | FIBER => "fiber"
  | UNKNOWN => "unknown"
  end.

(** [ASSET_TYPE_COLORS.get(asset_type, "#808080")]; the key may be [None]. *)
Definition ASSET_TYPE_COLORS_get (t : option AssetType) : string :=
  match t with
  | Some SEWER => "#8B4513" | Some STORM => "#4169E1"
  | Some POTABLE => "#00CED1" | Some GAS => "#FFD700"
  | Some ELECTRIC => "#FF4500" | Some TELECOM => "#9370DB"
  | Some FIBER => "#32CD32" | Some UNKNOWN => "#808080"
  | None => "#808080"
  end.

(** The columns of [Asset] the exporters read.  [coordinates] is [None]
    when the object has no such attribute; [original_points] is
    [original_properties['points']] when the property bag is non-empty and
    has that key. *)
Record Asset := mkAsset {
  id : string;
  asset_type : option AssetType;
  label : option string;
  layer_name : option string;
  depth_start : option float;
  depth_end : option float;
  depth_unit : option string;
  diameter : option float;
  diameter_unit : option string;
  material : option string;
  color : option string;
  coordinates : option (list (list float));
  original_points : option (list (list float))
}.

End Models.

(** ** Integer literals: [int(s, 16)] *)

Module PyInt.

(** The characters [int] skips at both ends of its argument: the ASCII
    white space (tab to carriage return, and the blank) and, among the code
    points 128 to 255, the two Unicode spaces, NEL (133) and the no-break
    space (160).  The separators 28 to 31 are not skipped. *)
Definition is_space (c : ascii) : bool :=
  let n := nat_of_ascii c in
  (Nat.leb 9 n && Nat.leb n 13) || Nat.eqb n 32 || Nat.eqb n 133 || Nat.eqb n 160.

Fixpoint lstrip_space (s : string) : string :=
  match s with
  | String c s' => if is_space c then lstrip_space s' else s
  | EmptyString => EmptyString
  end.

Fixpoint rstrip_space (s : string) : string :=
  match s with
  | EmptyString => EmptyString
  | String c s' =>
      match rstrip_space s' with
      | EmptyString => if is_space c then EmptyString else String c EmptyString
      | r => String c r
      end
  end.

Definition hex_digit (c : ascii) : option Z :=
  let n := Z.of_nat (nat_of_ascii c) in
  if (48 <=? n)%Z && (n <=? 57)%Z then Some (n - 48)%Z
  else if (97 <=? n)%Z && (n <=? 102)%Z then Some (n - 87)%Z
  else if (65 <=? n)%Z && (n <=? 70)%Z then Some (n - 55)%Z
  else None.

(** Digits after the first one; single underscores may separate digits. *)
Fixpoint more_digits (s : string) (acc : Z) (after_underscore : bool) : option Z :=
  match s with
  | EmptyString => if after_underscore then None else Some acc
  | String c s' =>
      if Ascii.eqb c "_"
      then (if after_underscore then None else more_digits s' acc true)
      else match hex_digit c with
           | Some d => more_digits s' (16 * acc + d)%Z false
           | None => None
           end
  end.

Definition digits (s : string) : option Z :=
  match s with
  | String c s' =>
      match hex_digit c with
      | Some d => more_digits s' d false
      | None => None
      end
  | EmptyString => None
  end.

(** An optional [0x]/[0X] prefix, itself optionally followed by one
    underscore. *)
Definition unsigned (s : string) : option Z :=
  match s with
  | String "0" (String x s') =>
      if Ascii.eqb x "x" || Ascii.eqb x "X"
      then digits (match s' with String "_" s'' => s'' | _ => s' end)
      else digits s
  | _ => digits s
  end.

(** [int(s, 16)]; [None] is [ValueError]. *)
Definition int16 (s : string) : option Z :=
  match rstrip_space (lstrip_space s) with
  | String "+" s' => unsigned s'
  | String "-" s' => Z.opp <$> unsigned s'
  | s' => unsigned s'
  end.

End PyInt.

(** ** The export adapters ([exporters.py]) *)

Module Exporters.
Import Py Models.

Record ExportOptions := mkOptions {
  source_crs : string;
  target_crs : string;
  include_properties : bool;
  include_depth : bool;
  default_depth : float;
  default_diameter : float;
  precision : Z
}.

Definition default_options : ExportOptions :=
  {| source_crs := "EPSG:4326"; target_crs := "EPSG:4326";
     include_properties := true; include_depth := true;
     default_depth := 1.5; default_diameter := 0.15; precision := 8 |}.

(** Functions of the interpreter and of third-party libraries that the
    adapters call and that have no counterpart among the primitive float
    operations. *)
Record Library := mkLibrary {
  (** [round(x, ndigits)] for a float [x] *)
  round_float : float -> Z -> float;
  (** [Transformer.from_crs(src, dst, always_xy=True).transform(x, y)] *)
  transform : string -> string -> float -> float -> float * float;
  (** [np.arccos] *)
  arccos : float -> float
}.

(** A number as it appears in an output document: the adapters mix the
    integer literal [0] with floats. *)
Inductive pynum :=
| PyInt (n : Z)
| PyFloat (x : float).

(** [round(n, ndigits)] for an integer: unchanged for [ndigits >= 0],
    otherwise the nearest multiple of [10 ** -ndigits], ties to even. *)
Definition round_int (n ndigits : Z) : Z :=
  if (0 <=? ndigits)%Z then n
  else
    let m := (10 ^ (- ndigits))%Z in
    let q := (n / m)%Z in
    let r := (n mod m)%Z in
    if (2 * r <? m)%Z then (q * m)%Z
    else if (m <? 2 * r)%Z then ((q + 1) * m)%Z
    else if Z.even q then (q * m)%Z else ((q + 1) * m)%Z.

(** [_extract_coordinates], the same in every adapter. *)
Definition _extract_coordinates (asset : Asset) : list (list float) :=
  match coordinates asset with
  | Some (c :: cs) => c :: cs
  | _ =>
      match original_points asset with
      | Some pts => pts
      | None => []
      end
  end.

Definition type_name (asset : Asset) : string :=
  match asset_type asset with
  | Some t => value t
  | None => "unknown"
  end.

Definition display_color (asset : Asset) : string :=
  or_str (color asset) (ASSET_TYPE_COLORS_get (asset_type asset)).

(** *** Vector/feature adapter *)

Inductive jvalue :=
| JStr (s : string)
| JNum (x : float).

Inductive Geometry :=
| Point (coordinates : list pynum)
| LineString (coordinates : list (list pynum)).

Record Feature := mkFeature {
  geometry : Geometry;
  f_properties : list (string * jvalue)
}.

(** The coordinate lists a geometry carries. *)
Definition geometry_coordinates (g : Geometry) : list (list pynum) :=
  match g with
  | Point c => [c]
  | LineString cs => cs
  end.

Record FeatureCollection := mkCollection {
  features : list Feature;
  crs : string;
  asset_count : nat
}.

Section GeoJSONExporter.
Context (L : Library) (options : ExportOptions).

Definition py_round (x : pynum) (ndigits : Z) : pynum :=
  match x with
  | PyInt n => PyInt (round_int n ndigits)
  | PyFloat v => PyFloat (round_float L v ndigits)
  end.

(** [self.transformer]: [None] when the two reference systems are equal. *)
Definition _init_transformer : option (float -> float -> float * float) :=
  if negb (String.eqb (source_crs options) (target_crs options))
  then Some (transform L (source_crs options) (target_crs options))
  else None.

Definition _transform_coord (coord : list float) : list pynum :=
  match _init_transformer, coord with
  | Some tr, c0 :: c1 :: rest =>
      let '(x, y) := tr c0 c1 in
      let z := match rest with
               | c2 :: _ => PyFloat c2
               | [] => PyInt 0
               end in
      [PyFloat x; PyFloat y; z]
  | _, _ => map PyFloat coord
  end.

(** One element of the rounding comprehension; [None] is the
    [IndexError] of [c[0]] or [c[1]]. *)
Definition round_coord (c : list pynum) : option (list pynum) :=
  match c !! 0%nat, c !! 1%nat with
  | Some c0, Some c1 =>
      let z := match c !! 2%nat with
               | Some c2 => py_round c2 (precision options)
               | None => PyInt 0
               end in
      Some [py_round c0 (precision options);
            py_round c1 (precision options); z]
  | _, _ => None
  end.

Definition feature_properties (asset : Asset) : list (string * jvalue) :=
  [ ("id", JStr (id asset));
    ("type", JStr (type_name asset));
    ("label", JStr (or_str (label asset) ""));
    ("layer", JStr (or_str (layer_name asset) ""));
    ("color", JStr (display_color asset)) ]
  ++ (if include_depth options
      then [ ("depth_start", JNum (or_float (depth_start asset) (default_depth options)));
             ("depth_end", JNum (or_float (depth_end asset) (default_depth options)));
             ("depth_unit", JStr (or_str (depth_unit asset) "meters")) ]
      else [])
  ++ (if include_properties options
      then [ ("diameter", JNum (or_float (diameter asset) (default_diameter options)));
             ("diameter_unit", JStr (or_str (diameter_unit asset) "meters"));
             ("material", JStr (or_str (material asset) "")) ]
      else []).

Definition _asset_to_feature (asset : Asset) : option Feature :=
  match _extract_coordinates asset with
  | [] => None
  | coords =>
      let coords1 :=
        match _init_transformer with
        | Some _ => map _transform_coord coords
        | None => map (map PyFloat) coords
        end in
      match mapM round_coord coords1 with
      | None => None
      | Some coords2 =>
          let geometry :=
            match coords2 with
            | [c] => Point c
            | _ => LineString coords2
            end in
          Some {| geometry := geometry;
                  f_properties := feature_properties asset |}
      end
  end.

Definition collect_features (assets : list Asset) : list Feature :=
  omap _asset_to_feature assets.

(** [GeoJSONExporter.export]: the success flag and the files written.
    [fs_ok] says whether creating the directory and writing succeed. *)
Definition geojson_export (fs_ok : bool) (assets : list Asset)
    (output_path : string) : bool * list (string * FeatureCollection) :=
  let features := collect_features assets in
  let geojson := {| features := features; crs := target_crs options;
                    asset_count := length features |} in
  if fs_ok then (true, [(output_path, geojson)]) else (false, []).

End GeoJSONExporter.

(** *** Tabular adapter *)

Inductive cell :=
| CStr (s : string)
| CNum (x : pynum).

Definition csv_header : list string :=
  ["id"; "type"; "label"; "layer"; "start_lat"; "start_lon"; "start_depth";
   "end_lat"; "end_lon"; "end_depth"; "diameter"; "material"; "color"].

(** [p[i] if len(p) > i else 0] *)
Definition component_or_zero (p : list float) (i : nat) : pynum :=
  match p !! i with
  | Some v => PyFloat v
  | None => PyInt 0
  end.

(** [p[2] if len(p) > 2 else depth or 0] *)
Definition depth_cell (p : list float) (depth : option float) : pynum :=
  match p !! 2%nat with
  | Some v => PyFloat v
  | None =>
      match depth with
      | Some d => if truthy d then PyFloat d else PyInt 0
      | None => PyInt 0
      end
  end.

(** [asset.diameter or ""] *)
Definition diameter_cell (d : option float) : cell :=
  match d with
  | Some v => if truthy v then CNum (PyFloat v) else CStr ""
  | None => CStr ""
  end.

Definition csv_row (asset : Asset) : option (list cell) :=
  match _extract_coordinates asset with
  | [] => None
  | start :: more =>
      let end_ := List.last more start in
      Some [ CStr (id asset);
             CStr (type_name asset);
             CStr (or_str (label asset) "");
             CStr (or_str (layer_name asset) "");
             CNum (component_or_zero start 1);
             CNum (component_or_zero start 0);
             CNum (depth_cell start (depth_start asset));
             CNum (component_or_zero end_ 1);
             CNum (component_or_zero end_ 0);
             CNum (depth_cell end_ (depth_end asset));
             diameter_cell (diameter asset);
             CStr (or_str (material asset) "");
             CStr (or_str (color asset) "") ]
  end.

(** [CSVExporter.export]: the header row, then one row per asset that has
    coordinates. *)
Definition csv_export (fs_ok : bool) (assets : list Asset) (output_path : string)
    : bool * list (string * (list string * list (list cell))) :=
  if fs_ok then (true, [(output_path, (csv_header, omap csv_row assets))])
  else (false, []).

(** *** Solid geometry and the direct mesh adapter *)

Definition vec : Type := list float.

(** Element-wise arithmetic on one-dimensional arrays: equal lengths, or
    one operand of length 1 stretched over the other; [None] is numpy's
    broadcast error. *)
Definition np_binary (f : float -> float -> float) (a b : vec) : option vec :=
  match a, b with
  | [x], _ => Some (map (f x) b)
  | _, [y] => Some (map (fun x => f x y) a)
  | _, _ =>
      if Nat.eqb (length a) (length b)
      then Some (zip_with f a b)
      else None
  end.

Definition np_scale (f : float -> float -> float) (a : vec) (k : float) : vec :=
  map (fun x => f x k) a.

(** [np.linalg.norm] of a one-dimensional array: [sqrt(dot(v, v))]. *)
Definition np_norm (v : vec) : float :=
  PrimFloat.sqrt (fold_left (fun s x => s + x * x)%float v 0%float).

(** [np.cross([0, 0, 1], d)]; numpy rejects operands that are not 2- or
    3-dimensional, and no 2-component direction reaches this call. *)
Definition np_cross_z (d : vec) : option vec :=
  match d with
  | [d0; d1; d2] =>
      Some [0 * d2 - 1 * d1; 1 * d0 - 0 * d2; 0 * d1 - 0 * d0]%float
  | _ => None
  end.

(** [np.dot([0, 0, 1], d)] for a 3-component [d]. *)
Definition np_dot_z (d : vec) : float :=
  match d with
  | [d0; d1; d2] => (0 * d0 + 0 * d1 + 1 * d2)%float
  | _ => 0%float
  end.

(** [np.clip(x, lo, hi)] *)
Definition np_clip (x lo hi : float) : float :=
  let y := if (x <? lo)%float then lo else x in
  if (hi <? y)%float then hi else y.

(** What is asked of the mesh library for one segment: a cylinder of the
    given radius and height along the vertical axis, then an optional
    rotation by [angle] about [axis], then a translation. *)
Record Cylinder := mkCylinder {
  radius : float;
  height : float;
  sections : nat;
  rotation : option (float * vec);
  translation : vec
}.

(** A segment with its uniform vertex colour. *)
Definition Segment : Type := Cylinder * list Z.

(** One mesh: the concatenation of its segments. *)
Definition Mesh : Type := list Segment.

(** [_hex_to_rgba]; [None] is the [ValueError] of [int(_, 16)]. *)
Definition _hex_to_rgba (hex_color : string) : option (list Z) :=
  let hex_color := lstrip "#" hex_color in
  match PyInt.int16 (slice 0 2 hex_color),
        PyInt.int16 (slice 2 4 hex_color),
        PyInt.int16 (slice 4 6 hex_color) with
  | Some r, Some g, Some b => Some [r; g; b; 255%Z]
  | _, _, _ => None
  end.

Section Solid.
Context (L : Library) (options : ExportOptions).
(** [GLTFExporter] and [FBXExporter] each carry their own
    [_asset_to_mesh] and [_create_cylinder].  The two texts differ in the
    number of [sections], 8 in the former and 12 in the latter, and in the
    [dtype=float] that only the latter passes to [np.array], which changes
    nothing for the lists of floats that [coordinates] holds here. *)
Context (nsections : nat).

(** [_create_cylinder]: outer [None] is an exception, inner [None] the
    degenerate segment. *)
Definition _create_cylinder (start end_ : vec) (radius : float)
    : option (option Cylinder) :=
  match np_binary PrimFloat.sub end_ start with
  | None => None
  | Some direction =>
      let length := np_norm direction in
      if (length <? 0.001)%float then Some None
      else
        let direction_normalized := np_scale PrimFloat.div direction length in
        match np_cross_z direction_normalized with
        | None => None
        | Some rotation_axis =>
            let rotation_axis_norm := np_norm rotation_axis in
            let rot :=
              if (0.001 <? rotation_axis_norm)%float
              then
                Some (arccos L (np_clip (np_dot_z direction_normalized) (-1) 1),
                      np_scale PrimFloat.div rotation_axis rotation_axis_norm)
              else None in
            match np_binary PrimFloat.add start end_ with
            | None => None
            | Some sum =>
                Some (Some {| radius := radius; height := length;
                              sections := nsections; rotation := rot;
                              translation := np_scale PrimFloat.div sum 2 |})
            end
        end
  end.

(** [np.append(p, -(depth or default_depth))] when [len(p) == 2]. *)
Definition with_depth (p : vec) (depth : option float) : vec :=
  if Nat.eqb (length p) 2
  then p ++ [(- or_float depth (default_depth options))%float]
  else p.

(** The loop over consecutive point pairs; [None] is an exception
    raised by some iteration. *)
Fixpoint segments_of (asset : Asset) (radius : float) (colour : list Z)
    (coords : list vec) : option (list Segment) :=
  match coords with
  | p :: ((q :: _) as rest) =>
      let start := with_depth p (depth_start asset) in
      let end_ := with_depth q (depth_end asset) in
      match _create_cylinder start end_ radius with
      | None => None
      | Some segment =>
          match segments_of asset radius colour rest with
          | None => None
          | Some segments =>
              Some (match segment with
                    | Some cyl => (cyl, colour) :: segments
                    | None => segments
                    end)
          end
      end
  | _ => Some []
  end.

Definition _asset_to_mesh (asset : Asset) : option Mesh :=
  let coords := _extract_coordinates asset in
  if Nat.ltb (length coords) 2 then None
  else
    let radius := (or_float (diameter asset) (default_diameter options) / 2)%float in
    match _hex_to_rgba (display_color asset) with
    | None => None
    | Some colour =>
        match segments_of asset radius colour coords with
        | Some (s :: segments) => Some (s :: segments)
        | Some [] => None
        | None => None
        end
    end.

Definition collect_meshes (assets : list Asset) : list Mesh :=
  omap _asset_to_mesh assets.

End Solid.

(** The two conditions outside the adapter that decide whether it can
    write: the mesh library can be imported, and the file system accepts
    the output. *)
Record MeshEnv := mkMeshEnv {
  trimesh_installed : bool;
  write_ok : bool
}.

(** [GLTFExporter.export]: the success flag and the files written. *)
Definition gltf_export (L : Library) (options : ExportOptions) (env : MeshEnv)
    (assets : list Asset) (output_path : string) : bool * list (string * Mesh) :=
  if negb (trimesh_installed env) then (false, [])
  else
    match collect_meshes L options 8 assets with
    | [] => (false, [])
    | meshes =>
        let combined := concat meshes in
        if write_ok env then (true, [(output_path, combined)])
        else (false, [])
    end.

(** Every consecutive pair of points of the asset spans a segment shorter
    than 0.001. *)
Definition all_pairs_degenerate (options : ExportOptions) (asset : Asset) : Prop :=
  forall i p q,
    _extract_coordinates asset !! i = Some p ->
    _extract_coordinates asset !! S i = Some q ->
    exists direction,
      np_binary PrimFloat.sub (with_depth options q (depth_end asset))
                              (with_depth options p (depth_start asset))
      = Some direction
      /\ (np_norm direction <? 0.001)%float = true.

End Exporters.

(** ** The external-tool-mediated mesh adapter ([fbx_exporter.py]) *)

Module FbxExporter.
Import Py Models Exporters.

(** How a [subprocess.run] call ends. *)
Inductive ProcessOutcome :=
| Exited (returncode : Z)
| TimeoutExpired
| LaunchError.

(** What the adapter meets outside itself: the result of [_find_blender],
    the outcome of the headless run, whether the mesh library can be
    imported, and whether the call [combined.export(path, file_type)]
    returns ([true]) or raises, [None] standing for a call that passes no
    [file_type].  Creating the temporary files and the output directory is
    taken to succeed. *)
Record FbxEnv := mkFbxEnv {
  blender_path : option string;
  blender_run : ProcessOutcome;
  trimesh_installed : bool;
  trimesh_export : string -> option string -> bool
}.

(** One element of [asset_data], the payload handed to the tool. *)
Record AssetData := mkAssetData {
  ad_coordinates : list (list float);
  ad_type : string;
  ad_color : string;
  ad_diameter : float;
  ad_depth_start : float;
  ad_depth_end : float;
  ad_label : string
}.

(** The two temporary files of the tool-mediated path, both created with
    [delete=False]: the JSON document with the asset data and the two
    default options, and the generation script. *)
Inductive TempFile :=
| DataFile (asset_data : list AssetData) (default_depth default_diameter : float)
| ScriptFile.

(** A call by which the adapter acts on the file system or on another
    program.  [Mkdir output_path] is
    [Path(output_path).parent.mkdir(parents=True, exist_ok=True)];
    [RunBlender output_path] is the [subprocess.run] of the tool in
    background mode on the script file, the data file and [output_path];
    [MeshExport path file_type m] is [combined.export(path)] or
    [combined.export(path, file_type=...)], whether it returns or raises. *)
Inductive Call :=
| CreateTemp (f : TempFile)
| Mkdir (output_path : string)
| RunBlender (output_path : string)
| Unlink (f : TempFile)
| MeshExport (path : string) (file_type : option string) (m : Mesh).

Definition is_mesh_export (c : Call) : bool :=
  match c with MeshExport _ _ _ => true | _ => false end.

Section FBXExporter.
Context (L : Library) (options : ExportOptions) (env : FbxEnv).

Definition asset_datum (asset : Asset) : option AssetData :=
  match _extract_coordinates asset with
  | [] => None
  | coords =>
      Some {| ad_coordinates := coords;
              ad_type := type_name asset;
              ad_color := display_color asset;
              ad_diameter := or_float (diameter asset) (default_diameter options);
              ad_depth_start := or_float (depth_start asset) (default_depth options);
              ad_depth_end := or_float (depth_end asset) (default_depth options);
              ad_label := or_str (label asset) (String.append "pipe_" (id asset)) |}
  end.

(** [_export_with_blender]: the value returned and the calls made, in
    order.  The two [os.unlink] calls follow a [subprocess.run] that
    returns; an exception of [subprocess.run] passes them by. *)
Definition _export_with_blender (assets : list Asset) (output_path : string)
    : bool * list Call :=
  match omap asset_datum assets with
  | [] => (false, [])
  | asset_data =>
      let data_file :=
        DataFile asset_data (default_depth options) (default_diameter options) in
      let prepared :=
        [CreateTemp data_file; CreateTemp ScriptFile; Mkdir output_path;
         RunBlender output_path] in
      match blender_run env with
      | Exited returncode =>
          let calls := prepared ++ [Unlink data_file; Unlink ScriptFile] in
          if negb (returncode =? 0)%Z then (false, calls)
          else (true, calls)
      | TimeoutExpired => (false, prepared)
      | LaunchError => (false, prepared)
      end
  end.

(** [_export_fallback]: the value returned and the calls made, in order.
    The second [export] call is made in the handler of the first and is
    given no [file_type]. *)
Definition _export_fallback (assets : list Asset) (output_path : string)
    : bool * list Call :=
  if negb (trimesh_installed env) then (false, [])
  else
    match collect_meshes L options 12 assets with
    | [] => (false, [])
    | meshes =>
        let combined := concat meshes in
        let first := [Mkdir output_path;
                      MeshExport output_path (Some "fbx") combined] in
        if trimesh_export env output_path (Some "fbx") then (true, first)
        else
          let obj_path := replace ".fbx" ".obj" output_path in
          let calls := first ++ [MeshExport obj_path None combined] in
          if trimesh_export env obj_path None then (true, calls)
          else (false, calls)
    end.

(** [FBXExporter.export] *)
Definition export (assets : list Asset) (output_path : string)
    : bool * list Call :=
  match blender_path env with
  | Some _ => _export_with_blender assets output_path
  | None => _export_fallback assets output_path
  end.

End FBXExporter.

End FbxExporter.

(** ** The generation script handed to the external tool
    ([BLENDER_FBX_SCRIPT] in [fbx_exporter.py]) *)

Module BlenderScript.

(** How [create_pipe_from_asset] completes one point of a segment: a
    2-component point receives [-depth]; a point with three or more
    components keeps x and y and receives [-abs(z)], or [-depth] when its z
    equals zero; a shorter point is left as it is. *)
Definition script_point (p : list float) (depth : float) : list float :=
  match p with
  | [x; y] => [x; y; (- depth)%float]
  | x :: y :: z :: _ =>
      [x; y; if negb (z =? 0)%float then (- abs z)%float else (- depth)%float]
  | _ => p
  end.

End BlenderScript.

(** ** The preview generator ([thumbnail.py]) *)

Module Thumbnail.
Import Py DwgParser.

Record ThumbnailOptions := mkThumbnailOptions {
  width : Z;
  height : Z;
  background_color : string;
  grid_color : string;
  default_line_color : string;
  line_width : Z;
  padding : Z;
  show_grid : bool;
  show_origin : bool;
  highlight_origin : bool
}.

Definition default_thumbnail_options : ThumbnailOptions :=
  {| width := 800; height := 600; background_color := "#1e293b";
     grid_color := "#334155"; default_line_color := "#94a3b8";
     line_width := 2; padding := 40; show_grid := true; show_origin := true;
     highlight_origin := false |}.

Definition TYPE_COLORS : list (string * string) :=
  [ ("sewer", "#8B4513"); ("storm", "#4169E1"); ("potable", "#00CED1");
    ("gas", "#FFD700"); ("electric", "#FF4500"); ("telecom", "#9370DB");
    ("fiber", "#32CD32") ].

(** [d[key]] / [key in d] for a dictionary written as a literal. *)
Fixpoint dict_get (key : string) (d : list (string * string)) : option string :=
  match d with
  | [] => None
  | (k, v) :: rest => if String.eqb key k then Some v else dict_get key rest
  end.

(** The colour [_draw_entities] picks for an entity. *)
Definition entity_color (options : ThumbnailOptions) (entity : ExtractedEntity)
    : string :=
  match suggested_type entity with
  | Some (String c t) =>
      match dict_get (String c t) TYPE_COLORS with
      | Some colour => colour
      | None => default_line_color options
      end
  | _ => default_line_color options
  end.

(** The line width [_draw_entities] picks for an entity. *)
Definition entity_line_width (options : ThumbnailOptions)
    (highlight_layers : option (list string)) (entity : ExtractedEntity) : Z :=
  match highlight_layers with
  | Some (l :: ls) =>
      if existsb (String.eqb (layer entity)) (l :: ls)
      then (line_width options + 2)%Z
      else line_width options
  | _ => line_width options
  end.

(** An integer as a float, for integers below [2 ** 63] in magnitude. *)
Definition float_of_int (n : Z) : float :=
  if (n <? 0)%Z then (- PrimFloat.of_uint63 (Uint63.of_Z (- n)))%float
  else PrimFloat.of_uint63 (Uint63.of_Z n).

Record Transform := mkTransform {
  scale : float;
  offset_x : float;
  offset_y : float;
  t_min_x : float;
  t_min_y : float;
  draw_width : float;
  draw_height : float
}.

Definition _calculate_transform (options : ThumbnailOptions) (parse_result : ParseResult)
    : option Transform :=
  match bounds parse_result with
  | None => None
  | Some (min_x, min_y, max_x, max_y) =>
      let draw_width := (max_x - min_x)%float in
      let draw_height := (max_y - min_y)%float in
      if (draw_width =? 0)%float || (draw_height =? 0)%float then None
      else
        let img_width := (width options - 2 * padding options)%Z in
        let img_height := (height options - 2 * padding options)%Z in
        let scale_x := (float_of_int img_width / draw_width)%float in
        let scale_y := (float_of_int img_height / draw_height)%float in
        let scale := py_min scale_x [scale_y] in
        let scaled_width := (draw_width * scale)%float in
        let scaled_height := (draw_height * scale)%float in
        let offset_x :=
          (float_of_int (padding options)
           + (float_of_int img_width - scaled_width) / 2)%float in
        let offset_y :=
          (float_of_int (padding options)
           + (float_of_int img_height - scaled_height) / 2)%float in
        Some {| scale := scale; offset_x := offset_x; offset_y := offset_y;
                t_min_x := min_x; t_min_y := min_y;
                draw_width := draw_width; draw_height := draw_height |}
  end.

(** [ThumbnailGenerator.generate]: without a transform it returns [False]
    before anything is drawn; [render_ok] says whether creating the image,
    drawing and saving then go through without raising. *)
Definition generate (options : ThumbnailOptions) (render_ok : bool)
    (parse_result : ParseResult) : bool :=
  match _calculate_transform options parse_result with
  | None => false
  | Some _ => render_ok
  end.

End Thumbnail.

(** ** Sample inputs *)

Module Samples.
Import Py DwgParser Models Exporters FbxExporter.

(** A library instance for running the examples: rounding and reprojection
    return their arguments and the arc cosine is constant.  No statement
    below depends on the instance chosen. *)
Definition example_library : Library :=
  {| round_float := fun x _ => x;
     transform := fun _ _ x y => (x, y);
     arccos := fun _ => 0%float |}.

(** A line drawn half a millimetre below grade. *)
Definition shallow_line : DxfEntity :=
  Line "1A" "PIPES" (0, 0, 0.0005)%float (4, 0, 0.0005)%float.

(** A drawing with one line on a layer named SEWER. *)
Definition sewer_drawing : Drawing :=
  {| dxfversion := "AC1032"; insunits := 6;
     doc_layers := [mkLayer "SEWER" 7 true false "Continuous"];
     modelspace := [Line "2B" "SEWER" (0, 0, 0)%float (12, 0, 0)%float];
     geodata := None; crs_header := None; ucs_rotation := None |}.

(** A drawing whose only non-zero z is exactly 0.001. *)
Definition threshold_drawing : Drawing :=
  {| dxfversion := "AC1032"; insunits := 6;
     doc_layers := [mkLayer "GAS_MAIN" 2 true false "Continuous"];
     modelspace := [Line "4D" "GAS_MAIN" (0, 0, 0)%float (8, 0, 0.001)%float];
     geodata := None; crs_header := None; ucs_rotation := None |}.

(** The mesh library is importable and the output can be written. *)
Definition env_ok : MeshEnv :=
  {| Exporters.trimesh_installed := true; write_ok := true |}.

(** A layer table and a line for the tie-break of the classifier. *)
Definition storm_drain_layers : list Layer :=
  [mkLayer "STORM_DRAIN_SS" 5 true false "Continuous"].

Definition storm_drain_entities : list ExtractedEntity :=
  _extract_entities_from
    [Line "3C" "STORM_DRAIN_SS" (0, 0, 0)%float (25, 0, 0)%float].

(** A pipe with two 3-component points and one with two 2-component
    points. *)
Definition pipe_3d : Asset :=
  {| id := "a1"; asset_type := Some SEWER; label := Some "MH1-MH2";
     layer_name := Some "SEWER"; depth_start := Some 2%float;
     depth_end := Some 2.5%float; depth_unit := None;
     diameter := Some 0.3%float; diameter_unit := None; material := None;
     color := None;
     coordinates := Some [[10.5; 20.25; -2]%float; [30.5; 20.25; -2.5]%float];
     original_points := None |}.

Definition pipe_2d : Asset :=
  {| id := "a2"; asset_type := Some POTABLE; label := None;
     layer_name := Some "WATER"; depth_start := None; depth_end := None;
     depth_unit := None; diameter := None; diameter_unit := None;
     material := None; color := None;
     coordinates := Some [[1; 2]%float; [3; 4]%float];
     original_points := None |}.

(** A pipe laid at grade whose recorded depth and diameter are 0.0. *)
Definition pipe_at_grade : Asset :=
  {| id := "a3"; asset_type := Some GAS; label := None;
     layer_name := Some "GAS"; depth_start := Some 0%float;
     depth_end := Some 0%float; depth_unit := None;
     diameter := Some 0%float; diameter_unit := None; material := None;
     color := None;
     coordinates := Some [[1; 2]%float; [3; 4]%float];
     original_points := None |}.

(** A vertical pipe, ten units long, 0.3 in diameter. *)
Definition riser : Asset :=
  {| id := "a4"; asset_type := Some SEWER; label := Some "riser";
     layer_name := Some "SEWER"; depth_start := None; depth_end := None;
     depth_unit := None; diameter := Some 0.3%float; diameter_unit := None;
     material := None; color := None;
     coordinates := Some [[5; 5; -10]%float; [5; 5; 0]%float];
     original_points := None |}.

(** An asset whose two points coincide: its only segment is degenerate. *)
Definition collapsed_pipe : Asset :=
  {| id := "a5"; asset_type := None; label := None; layer_name := None;
     depth_start := None; depth_end := None; depth_unit := None;
     diameter := None; diameter_unit := None; material := None; color := None;
     coordinates := Some [[7; 7]%float; [7; 7]%float];
     original_points := None |}.

(** A mesh library without an FBX writer that picks the writer by the
    extension of the path when it is given no file type. *)
Definition obj_only (path : string) (file_type : option string) : bool :=
  match file_type with
  | Some t => String.eqb t "obj"
  | None =>
      String.eqb (substring (String.length path - 4) 4 path) ".obj"
  end.

(** The tool is installed but the run times out; the mesh library is
    present, cannot write FBX, can write OBJ. *)
Definition env_timeout : FbxEnv :=
  {| blender_path := Some "/usr/bin/blender"; blender_run := TimeoutExpired;
     trimesh_installed := true; trimesh_export := obj_only |}.

(** The same, the run ending with exit status 1. *)
Definition env_exit_1 : FbxEnv :=
  {| blender_path := Some "/usr/bin/blender"; blender_run := Exited 1;
     trimesh_installed := true; trimesh_export := obj_only |}.

(** The tool is not installed. *)
Definition env_no_tool : FbxEnv :=
  {| blender_path := None; blender_run := LaunchError;
     trimesh_installed := true; trimesh_export := obj_only |}.

(** A drawing with a line, a text entity the parser has no case for, and
    a circle; and the same drawing without the text. *)
Definition annotated_drawing : Drawing :=
  {| dxfversion := "AC1032"; insunits := 6;
     doc_layers := [mkLayer "WATER_MAIN" 4 true false "Continuous";
                    mkLayer "NOTES" 7 true false "Continuous"];
     modelspace := [Line "5E" "WATER_MAIN" (0, 0, -1.5)%float (10, 5, -1.5)%float;
                    Other "5F" "NOTES" "TEXT";
                    Circle "60" "VALVES" (-3, 8, 0)%float 0.5%float];
     geodata := Some "EPSG:26910"; crs_header := None; ucs_rotation := None |}.

Definition plain_drawing : Drawing :=
  {| dxfversion := "AC1032"; insunits := 6;
     doc_layers := [mkLayer "WATER_MAIN" 4 true false "Continuous";
                    mkLayer "NOTES" 7 true false "Continuous"];
     modelspace := [Line "5E" "WATER_MAIN" (0, 0, -1.5)%float (10, 5, -1.5)%float;
                    Circle "60" "VALVES" (-3, 8, 0)%float 0.5%float];
     geodata := Some "EPSG:26910"; crs_header := None; ucs_rotation := None |}.


(** Export options asking for a reprojection. *)
Definition utm_options : ExportOptions :=
  {| source_crs := "EPSG:26910"; target_crs := "EPSG:4326";
     include_properties := true; include_depth := true;
     default_depth := 1.5; default_diameter := 0.15; precision := 8 |}.

(** An asset without coordinates, and one with a single point. *)
Definition unplaced_asset : Asset :=
  {| id := "a6"; asset_type := Some TELECOM; label := None;
     layer_name := Some "TEL"; depth_start := None; depth_end := None;
     depth_unit := None; diameter := None; diameter_unit := None;
     material := None; color := None;
     coordinates := Some []; original_points := None |}.

Definition manhole : Asset :=
  {| id := "a7"; asset_type := Some STORM; label := Some "MH-7";
     layer_name := Some "STORM"; depth_start := Some 3%float; depth_end := None;
     depth_unit := None; diameter := Some 1.2%float; diameter_unit := None;
     material := Some "concrete"; color := Some "#4169E1";
     coordinates := Some [[12; 34]%float]; original_points := None |}.


(** The riser again, with a three-digit colour. *)
Definition white_riser : Asset :=
  {| id := "a8"; asset_type := Some SEWER; label := Some "riser";
     layer_name := Some "SEWER"; depth_start := None; depth_end := None;
     depth_unit := None; diameter := Some 0.3%float; diameter_unit := None;
     material := None; color := Some "#FFF";
     coordinates := Some [[5; 5; -10]%float; [5; 5; 0]%float];
     original_points := None |}.

(** A straight pipe, ten units long, 0.3 in diameter, whose two points
    carry a fourth component, the same for both. *)
Definition measured_pipe : Asset :=
  {| id := "a10"; asset_type := Some POTABLE; label := None;
     layer_name := Some "WATER"; depth_start := None; depth_end := None;
     depth_unit := None; diameter := Some 0.3%float; diameter_unit := None;
     material := None; color := None;
     coordinates := Some [[0; 0; -2; 7]%float; [10; 0; -2; 7]%float];
     original_points := None |}.

(** A pipe whose second point carries a fourth component. *)
Definition ragged_pipe : Asset :=
  {| id := "a9"; asset_type := Some GAS; label := None;
     layer_name := Some "GAS"; depth_start := None; depth_end := None;
     depth_unit := None; diameter := None; diameter_unit := None;
     material := None; color := None;
     coordinates := Some [[0; 0; -1]%float; [9; 0; -1; 7]%float; [9; 9; -1]%float];
     original_points := None |}.


(** The tool is installed and its run ends with exit status 0. *)
Definition env_tool_ok : FbxEnv :=
  {| blender_path := Some "/usr/bin/blender"; blender_run := Exited 0;
     trimesh_installed := true; trimesh_export := obj_only |}.


(** A drawing whose only entity is a line running north. *)
Definition northbound_drawing : Drawing :=
  {| dxfversion := "AC1032"; insunits := 6;
     doc_layers := [mkLayer "FIBER" 3 true false "Continuous"];
     modelspace := [Line "70" "FIBER" (250, 0, 0)%float (250, 80, 0)%float];
     geodata := None; crs_header := None; ucs_rotation := None |}.


(** A drawing with two block insertions, the second a north arrow. *)
Definition oriented_drawing : Drawing :=
  {| dxfversion := "AC1032"; insunits := 2;
     doc_layers := [mkLayer "0" 7 true false "Continuous"];
     modelspace := [Insert "80" "0" "TITLE_BLOCK" 0%float;
                    Line "81" "0" (0, 0, 0)%float (30, 40, 0)%float;
                    Insert "82" "0" "North_Arrow_2" 12.5%float;
                    Insert "83" "0" "NORTH" 90%float];
     geodata := None; crs_header := None; ucs_rotation := Some 0.05%float |}.

End Samples.

(** * Properties *)

(** ** Comparisons of binary64 numbers *)

Module FloatFacts.

(** A number whose magnitude exceeds the depth threshold is not zero. *)
Lemma above_threshold_nonzero (z : float) :
  (0.001 <? abs z)%float = true -> (z =? 0)%float = false.
Proof.
  rewrite FloatAxioms.ltb_spec, FloatAxioms.eqb_spec, FloatAxioms.abs_spec.
  destruct (Prim2SF z) as [s| s | |s m e]; vm_compute; try congruence.
  all: destruct s; reflexivity.
Qed.

(** A number of positive magnitude is not zero. *)
Lemma positive_magnitude_nonzero (z : float) :
  (0 <? abs z)%float = true -> (z =? 0)%float = false.
Proof.
  rewrite FloatAxioms.ltb_spec, FloatAxioms.eqb_spec, FloatAxioms.abs_spec.
  destruct (Prim2SF z) as [s| s | |s m e]; vm_compute; try congruence.
  all: destruct s; reflexivity.
Qed.

Lemma zero_below_threshold (z : float) :
  (z =? 0)%float = true -> (0.001 <? abs z)%float = false.
Proof.
  intros Hz. destruct (0.001 <? abs z)%float eqn:E; [|reflexivity].
  apply above_threshold_nonzero in E. congruence.
Qed.

Lemma SFcompare_Lt_Eq_not_Lt (x y : spec_float) :
  SFleb x y = true -> SFltb y x = false.
Proof.
  unfold SFleb, SFltb.
  destruct x as [sx|sx| |sx mx ex], y as [sy|sy| |sy my ey]; simpl;
    try congruence;
    try (destruct sx; congruence); try (destruct sy; congruence);
    try (destruct sx, sy; congruence).
  destruct sx, sy; try congruence;
    rewrite (Z.compare_antisym ex ey);
    destruct (ex ?= ey)%Z; simpl; try congruence;
    change (Pos.compare_cont Eq my mx) with (Pos.compare my mx);
    change (Pos.compare_cont Eq mx my) with (Pos.compare mx my);
    rewrite (Pos.compare_antisym mx my);
    destruct (mx ?= my)%positive; simpl; congruence.
Qed.

(** [x <= y] excludes [y < x]. *)
Lemma leb_not_gtb (x y : float) :
  (x <=? y)%float = true -> (y <? x)%float = false.
Proof. rewrite FloatAxioms.leb_spec, FloatAxioms.ltb_spec. apply SFcompare_Lt_Eq_not_Lt. Qed.

End FloatFacts.

(** ** The drawing parser *)

Module DwgParserProps.
Import Py DwgParser FloatFacts Samples.

(** *** What extraction establishes *)

Lemma build_entity_fresh h ty lay pts props e :
  build_entity h ty lay pts props = Some e -> fresh e /\ layer e = lay.
Proof.
  unfold build_entity. destruct pts as [|p pts]; [discriminate|].
  intros [= <-]. unfold fresh. simpl. repeat split. discriminate.
Qed.

Lemma extract_single_fresh entity e :
  _extract_single_entity entity = Some e -> fresh e.
Proof.
  destruct entity; cbv beta iota delta [_extract_single_entity];
    try discriminate;
    intros H; apply build_entity_fresh in H; tauto.
Qed.

Lemma extract_entities_fresh msp :
  Forall fresh (_extract_entities_from msp).
Proof.
  induction msp as [|entity rest IH]; simpl; [constructor|].
  destruct (_extract_single_entity entity) eqn:E; [|assumption].
  constructor; [eapply extract_single_fresh; eassumption | assumption].
Qed.

(** An entity has a non-empty list of depth values exactly when one of
    its points has a z that differs from zero. *)
Lemma fresh_has_depth e :
  fresh e ->
  (has_depth e = true <-> exists p, In p (points e) /\ (pz p =? 0)%float = false).
Proof.
  intros (_ & _ & Hd & Hh). rewrite Hh, Hd. clear Hh Hd.
  induction (points e) as [|q qs IH]; simpl.
  - split; [discriminate | intros (p & [] & _)].
  - destruct (pz q =? 0)%float eqn:E; simpl.
    + rewrite IH. split.
      * intros (p & Hp & Hz). exists p. auto.
      * intros (p & [<- | Hp] & Hz); [congruence | exists p; auto].
    + split; [intros _; exists q; auto | reflexivity].
Qed.

(** *** Classification *)

Lemma classify_one_points lt e : points (classify_one lt e) = points e.
Proof. unfold classify_one. destruct (lt !! layer e); reflexivity. Qed.

Lemma classify_one_layer lt e : layer (classify_one lt e) = layer e.
Proof. unfold classify_one. destruct (lt !! layer e); reflexivity. Qed.

(** The first entry of a table that matches is the one returned. *)
Lemma first_matching_type_index table s i (t : string) (kws : list string) :
  table !! i = Some (t, kws) ->
  keywords_match kws s = true ->
  (forall j t' kws', j < i -> table !! j = Some (t', kws') ->
                     keywords_match kws' s = false) ->
  first_matching_type table s = Some t.
Proof.
  revert i. induction table as [|[t0 k0] rest IH]; intros i Hi Hm Hbefore.
  - rewrite lookup_nil in Hi. discriminate.
  - simpl. destruct i as [|i].
    + simpl in Hi. injection Hi as -> ->. rewrite Hm. reflexivity.
    + rewrite (Hbefore 0 t0 k0); [|lia|reflexivity].
      apply (IH i); [exact Hi | exact Hm |].
      intros j t' kws' Hj Hl. apply (Hbefore (S j) t' kws'); [lia | exact Hl].
Qed.

Lemma assign_other m l n : name l <> n -> assign m l !! n = m !! n.
Proof.
  intros Hne. unfold assign.
  destruct (first_matching_type _ _); [apply lookup_insert_ne; exact Hne | reflexivity].
Qed.

Lemma fold_assign_absent lays m n :
  (forall l, In l lays -> name l <> n) ->
  fold_left assign lays m !! n = m !! n.
Proof.
  revert m. induction lays as [|l lays IH]; intros m Hn; simpl; [reflexivity|].
  rewrite IH; [|intros l' Hl'; apply Hn; right; exact Hl'].
  apply assign_other. apply Hn. left. reflexivity.
Qed.

Lemma fold_assign_keeps lays m n t :
  first_matching_type ASSET_TYPE_KEYWORDS (upper n) = Some t ->
  m !! n = Some t ->
  fold_left assign lays m !! n = Some t.
Proof.
  intros Ht. revert m. induction lays as [|l lays IH]; intros m Hm; simpl; [exact Hm|].
  apply IH. destruct (String.eqb_spec (name l) n) as [<-|Hne].
  - unfold assign. rewrite Ht. apply lookup_insert_eq.
  - rewrite assign_other; assumption.
Qed.

Lemma fold_assign_present lays m n t :
  first_matching_type ASSET_TYPE_KEYWORDS (upper n) = Some t ->
  (exists l, In l lays /\ name l = n) ->
  fold_left assign lays m !! n = Some t.
Proof.
  intros Ht. revert m. induction lays as [|l lays IH]; intros m (l0 & Hin & Hl0).
  - destruct Hin.
  - simpl. destruct Hin as [<- | Hin].
    + apply fold_assign_keeps; [exact Ht|].
      unfold assign. rewrite Hl0, Ht, <- Hl0. apply lookup_insert_eq.
    + apply IH. exists l0. auto.
Qed.

(** A layer of the table is mapped to the first matching type. *)
Lemma build_layer_types_present lays n t :
  first_matching_type ASSET_TYPE_KEYWORDS (upper n) = Some t ->
  (exists l, In l lays /\ name l = n) ->
  build_layer_types lays !! n = Some t.
Proof. apply fold_assign_present. Qed.


(** *** Depth detection *)

Lemma check_depth_iff ents :
  Forall fresh ents ->
  (_check_depth ents = true <->
   exists e p, In e ents /\ In p (points e) /\ (0.001 <? abs (pz p))%float = true).
Proof.
  intros Hfresh. unfold _check_depth. rewrite existsb_exists. split.
  - intros (e & He & Hc).
    apply andb_prop in Hc as [Hc Hany]. apply existsb_exists in Hany as (z & Hz & Hgt).
    rewrite Forall_forall in Hfresh.
    destruct (Hfresh e) as (_ & _ & Hd & _); [apply list_elem_of_In; exact He|].
    rewrite Hd in Hz. apply filter_In in Hz as [Hz _].
    apply in_map_iff in Hz as (p & <- & Hp). exists e, p. auto.
  - intros (e & p & He & Hp & Hgt). exists e. split; [exact He|].
    rewrite Forall_forall in Hfresh.
    destruct (Hfresh e) as (_ & _ & Hd & Hh); [apply list_elem_of_In; exact He|].
    assert (Hz : In (pz p) (depth_values e)).
    { rewrite Hd. apply filter_In. split; [apply in_map; exact Hp|].
      rewrite (above_threshold_nonzero _ Hgt). reflexivity. }
    assert (Hany : existsb (fun z => (0.001 <? abs z)%float) (depth_values e) = true).
    { apply existsb_exists. exists (pz p). auto. }
    rewrite Hh, Hany. destruct (depth_values e) as [|z zs]; [destruct Hz | reflexivity].
Qed.

Lemma parse_entities fname doc :
  entities (parse fname (Loaded doc))
  = _classify_entities (_extract_entities doc) (_extract_layers doc).
Proof.
  unfold parse. destruct (_detect_crs doc), (_detect_rotation doc). reflexivity.
Qed.

Lemma parse_has_depth fname doc :
  r_has_depth (parse fname (Loaded doc)) = _check_depth (_extract_entities doc).
Proof.
  unfold parse. destruct (_detect_crs doc), (_detect_rotation doc). reflexivity.
Qed.

Lemma parse_missing_fields fname doc :
  missing_fields (parse fname (Loaded doc))
  = _determine_missing_fields (_check_depth (_extract_entities doc))
      (fst (_detect_crs doc)) (fst (_detect_rotation doc)) (_extract_entities doc).
Proof.
  unfold parse. destruct (_detect_crs doc), (_detect_rotation doc). reflexivity.
Qed.

(** Classification leaves the points of every entity in place. *)
Lemma classified_points ents lays :
  forall P : point -> Prop,
    (exists e p, In e (_classify_entities ents lays) /\ In p (points e) /\ P p)
    <-> (exists e p, In e ents /\ In p (points e) /\ P p).
Proof.
  intros P. unfold _classify_entities. split.
  - intros (e' & p & He' & Hp & HP). apply in_map_iff in He' as (e & <- & He).
    exists e, p. rewrite classify_one_points in Hp. auto.
  - intros (e & p & He & Hp & HP).
    exists (classify_one (build_layer_types lays) e), p.
    rewrite classify_one_points. split; [apply in_map; exact He | auto].
Qed.

(** C4. The drawing-level [has_depth] flag of a parsed drawing is true
    exactly when some point of some entity has a z of magnitude above
    0.001; a drawing whose z values are all zero or exactly 0.001 has the
    flag false. *)
Theorem drawing_has_depth_iff_point_above_threshold (fname : string) (doc : Drawing) :
  let r := parse fname (Loaded doc) in
  (r_has_depth r = true <->
   exists e p, In e (entities r) /\ In p (points e)
               /\ (0.001 <? abs (pz p))%float = true)
  /\ ((forall e p, In e (entities r) -> In p (points e) ->
                   (pz p =? 0)%float = true \/ pz p = 0.001%float) ->
      r_has_depth r = false).
Proof.
  intros r.
  assert (Hiff : r_has_depth r = true <->
            exists e p, In e (entities r) /\ In p (points e)
                        /\ (0.001 <? abs (pz p))%float = true).
  { subst r. rewrite parse_has_depth, parse_entities.
    rewrite check_depth_iff by apply extract_entities_fresh.
    symmetry.
    apply (classified_points (_extract_entities doc) (_extract_layers doc)
             (fun p => (0.001 <? abs (pz p))%float = true)). }
  split; [exact Hiff|].
  intros Honly. apply not_true_is_false. intros E.
  apply Hiff in E as (e & p & He & Hp & Hgt).
  destruct (Honly e p He Hp) as [Hz | Hz].
  - rewrite (zero_below_threshold _ Hz) in Hgt. discriminate.
  - rewrite Hz in Hgt. vm_compute in Hgt. discriminate.
Qed.


Lemma drawing_has_depth_iff_point_above_threshold_witness :
  r_has_depth (parse "edge.dxf" (Loaded threshold_drawing)) = false.
Proof.
  apply (proj2 (drawing_has_depth_iff_point_above_threshold
                  "edge.dxf" threshold_drawing)).
  intros e p [<- | []] [<- | [<- | []]]; [left | right]; reflexivity.
Defined.

(** C5, as stated, fails: the entity extracted from a line whose two
    points have z = 0.0005 (so 0 < |z| <= 0.001 for every point, and no
    point has |z| > 0.001) has its [has_depth] field true. *)
Lemma entity_has_depth_below_threshold :
  exists e, _extract_single_entity shallow_line = Some e
    /\ (forall p, In p (points e) ->
                  (0 <? abs (pz p))%float = true
                  /\ (abs (pz p) <=? 0.001)%float = true
                  /\ (0.001 <? abs (pz p))%float = false)
    /\ has_depth e = true.
Proof.
  eexists. split; [reflexivity|]. split; [|reflexivity].
  intros p [<- | [<- | []]]; vm_compute; auto.
Qed.

(** C5, amended. The per-entity [has_depth] field is true exactly when
    some point of the entity has a z different from zero (no threshold is
    applied at entity level); an entity whose points all have
    0 < |z| <= 0.001 has the field true. *)
Theorem entity_has_depth_iff_nonzero_z (entity : DxfEntity) (e : ExtractedEntity) :
  _extract_single_entity entity = Some e ->
  (has_depth e = true <->
   exists p, In p (points e) /\ (pz p =? 0)%float = false)
  /\ ((forall p, In p (points e) ->
                 (0 <? abs (pz p))%float = true
                 /\ (abs (pz p) <=? 0.001)%float = true) ->
      has_depth e = true).
Proof.
  intros He. apply extract_single_fresh in He as Hfresh.
  pose proof (fresh_has_depth e Hfresh) as Hiff.
  split; [exact Hiff|].
  intros Hall. apply Hiff. destruct Hfresh as (Hne & _).
  destruct (points e) as [|p ps]; [congruence|].
  exists p. split; [left; reflexivity|].
  apply positive_magnitude_nonzero, (Hall p). left. reflexivity.
Qed.

Lemma entity_has_depth_iff_nonzero_z_witness :
  exists e, _extract_single_entity shallow_line = Some e
    /\ (has_depth e = true <->
        exists p, In p (points e) /\ (pz p =? 0)%float = false)
    /\ ((forall p, In p (points e) ->
                   (0 <? abs (pz p))%float = true
                   /\ (abs (pz p) <=? 0.001)%float = true) ->
        has_depth e = true).
Proof.
  eexists. split; [reflexivity|].
  apply (entity_has_depth_iff_nonzero_z shallow_line). reflexivity.
Defined.

(** *** Missing fields *)

Lemma no_labels_before_classification ents :
  Forall fresh ents ->
  existsb (fun entity => match suggested_type entity with
                         | Some _ => true
                         | None => false
                         end) ents = false.
Proof.
  induction 1 as [|e ents (_ & Hs & _) _ IH]; simpl; [reflexivity|].
  rewrite Hs, IH. reflexivity.
Qed.

(** Whatever the drawing, the list computed by [parse] names "labels". *)
Lemma labels_always_missing fname doc :
  In "labels" (missing_fields (parse fname (Loaded doc))).
Proof.
  rewrite parse_missing_fields. unfold _determine_missing_fields.
  rewrite no_labels_before_classification by apply extract_entities_fresh.
  rewrite !in_app_iff. right. right. right. left. reflexivity.
Qed.

(** C2. The code computes [missing_fields] before it classifies: for the
    drawing above the parse succeeds, its only entity ends with
    [suggested_type] "sewer", and "labels" is nevertheless listed as
    missing. *)
Theorem labels_listed_although_entity_classified :
  let r := parse "site.dxf" (Loaded sewer_drawing) in
  success r = true
  /\ (exists e, In e (entities r) /\ suggested_type e = Some "sewer")
  /\ In "labels" (missing_fields r).
Proof.
  intros r. split; [reflexivity|]. split.
  - eexists. split; [left; reflexivity | reflexivity].
  - apply labels_always_missing.
Qed.

(** *** Tie-break of the classification *)

(** C1, as stated, fails: with a layer named STORM_DRAIN_SS in the layer
    table, the entity on that layer is not given the type "storm". *)
Lemma storm_drain_ss_not_storm :
  exists e, _classify_entities storm_drain_entities storm_drain_layers = [e]
    /\ layer e = "STORM_DRAIN_SS"
    /\ suggested_type e <> Some "storm".
Proof.
  eexists. split; [vm_compute; reflexivity|]. split; [reflexivity|].
  simpl. discriminate.
Qed.

(** C1, amended. For a layer of the layer table with an ASCII name that
    matches the keywords of several types, the type assigned is that of the
    first matching entry of the keyword table, in which sewer's entry is
    first and storm's second; in particular every entity on a layer named
    STORM_DRAIN_SS receives the type "sewer".  The name is required to be
    ASCII because [upper] is [str.upper] on such names only. *)
Theorem classification_first_table_entry_wins
    (lays : list Layer) (ents : list ExtractedEntity) (k : nat)
    (e e' : ExtractedEntity) :
  (exists l, In l lays /\ name l = layer e) ->
  is_ascii (layer e) = true ->
  ents !! k = Some e ->
  _classify_entities ents lays !! k = Some e' ->
  (forall i t kws,
      ASSET_TYPE_KEYWORDS !! i = Some (t, kws) ->
      keywords_match kws (upper (layer e)) = true ->
      (forall j t' kws', j < i -> ASSET_TYPE_KEYWORDS !! j = Some (t', kws') ->
                         keywords_match kws' (upper (layer e)) = false) ->
      suggested_type e' = Some t)
  /\ (fst <$> ASSET_TYPE_KEYWORDS !! 0%nat = Some "sewer"
      /\ fst <$> ASSET_TYPE_KEYWORDS !! 1%nat = Some "storm")
  /\ (layer e = "STORM_DRAIN_SS" -> suggested_type e' = Some "sewer").
Proof.
  intros Hlay _ Hk Hk'.
  assert (He' : e' = classify_one (build_layer_types lays) e).
  { unfold _classify_entities in Hk'. rewrite list_lookup_fmap, Hk in Hk'.
    simpl in Hk'. congruence. }
  assert (Hfirst : forall t,
             first_matching_type ASSET_TYPE_KEYWORDS (upper (layer e)) = Some t ->
             suggested_type e' = Some t).
  { intros t Ht. subst e'. unfold classify_one.
    rewrite (build_layer_types_present lays (layer e) t Ht Hlay). reflexivity. }
  split; [|split; [split; reflexivity|]].
  - intros i t kws Hi Hm Hbefore. apply Hfirst.
    eapply first_matching_type_index; eassumption.
  - intros Hname. apply Hfirst. rewrite Hname. reflexivity.
Qed.

Lemma classification_first_table_entry_wins_witness :
  exists e e',
    storm_drain_entities !! 0%nat = Some e
    /\ _classify_entities storm_drain_entities storm_drain_layers !! 0%nat = Some e'
    /\ suggested_type e' = Some "sewer".
Proof.
  eexists. eexists. split; [reflexivity|]. split; [reflexivity|].
  refine (proj2 (proj2 (classification_first_table_entry_wins
                          storm_drain_layers storm_drain_entities 0 _ _
                          _ _ eq_refl eq_refl)) eq_refl).
  - eexists. split; [left; reflexivity | reflexivity].
  - reflexivity.
Defined.

End DwgParserProps.

(** ** The vector/feature and tabular adapters *)

Module ExportProps.
Import Py Models Exporters Samples.

Lemma init_transformer_equal_crs L options :
  source_crs options = target_crs options -> _init_transformer L options = None.
Proof.
  intros H. unfold _init_transformer. rewrite H, String.eqb_refl. reflexivity.
Qed.

(** The geometry built from a coordinate list carries that list. *)
Lemma geometry_coordinates_of_list (coords : list (list pynum)) :
  geometry_coordinates (match coords with
                        | [c] => Point c
                        | _ => LineString coords
                        end) = coords.
Proof. destruct coords as [|c [|c' cs]]; reflexivity. Qed.

Lemma round_int_zero ndigits : round_int 0 ndigits = 0%Z.
Proof.
  unfold round_int. destruct (0 <=? ndigits)%Z eqn:E; [reflexivity|].
  apply Z.leb_gt in E.
  assert (Hm : (0 < 10 ^ (- ndigits))%Z) by (apply Z.pow_pos_nonneg; lia).
  rewrite Z.div_0_l, Zmod_0_l by lia.
  replace (2 * 0)%Z with 0%Z by reflexivity.
  apply Z.ltb_lt in Hm. rewrite Hm. reflexivity.
Qed.

(** What [_asset_to_feature] returns, when it returns a feature. *)
Lemma asset_to_feature_Some L options asset f :
  _asset_to_feature L options asset = Some f ->
  _extract_coordinates asset <> []
  /\ f_properties f = feature_properties options asset
  /\ Forall2 (fun cin cout =>
                round_coord L options
                  (match _init_transformer L options with
                   | Some _ => _transform_coord L options cin
                   | None => map PyFloat cin
                   end) = Some cout)
             (_extract_coordinates asset) (geometry_coordinates (geometry f)).
Proof.
  unfold _asset_to_feature.
  destruct (_extract_coordinates asset) as [|c cs] eqn:Ec; [discriminate|].
  destruct (mapM _ _) as [coords2|] eqn:Em; [|discriminate].
  intros [= <-]. split; [discriminate|]. split; [reflexivity|].
  cbn [geometry]. rewrite geometry_coordinates_of_list.
  apply mapM_Some_1 in Em.
  destruct (_init_transformer L options); apply Forall2_fmap_l in Em; exact Em.
Qed.

(** Every rounded coordinate has three components. *)
Lemma round_coord_length L options c c' :
  round_coord L options c = Some c' -> length c' = 3.
Proof.
  unfold round_coord. destruct (c !! 0%nat), (c !! 1%nat); try discriminate.
  intros [= <-]. reflexivity.
Qed.


(** C6. When the source and target reference systems are equal no
    transformer is built, the feature does not depend on the reprojection
    function, and every coordinate of the feature is the input coordinate
    with each component rounded to [precision] places (the third component
    being the literal 0 when the input has none). *)
Theorem equal_crs_exports_rounded_input
    (L : Library) (options : ExportOptions) (asset : Asset) (f : Feature) :
  source_crs options = target_crs options ->
  _asset_to_feature L options asset = Some f ->
  _init_transformer L options = None
  /\ (forall tr,
        _asset_to_feature
          {| round_float := round_float L; transform := tr; arccos := arccos L |}
          options asset = Some f)
  /\ Forall2
       (fun cin cout =>
          exists x y rest,
            cin = x :: y :: rest
            /\ cout = [ PyFloat (round_float L x (precision options));
                        PyFloat (round_float L y (precision options));
                        match rest with
                        | z :: _ => PyFloat (round_float L z (precision options))
                        | [] => PyInt 0
                        end ])
       (_extract_coordinates asset) (geometry_coordinates (geometry f)).
Proof.
  intros Hcrs Hf.
  pose proof (init_transformer_equal_crs L options Hcrs) as Hnone.
  split; [exact Hnone|]. split.
  - intros tr. unfold _asset_to_feature in *.
    rewrite (init_transformer_equal_crs _ options Hcrs).
    rewrite Hnone in Hf. exact Hf.
  - apply asset_to_feature_Some in Hf as (_ & _ & Hall). rewrite Hnone in Hall.
    eapply Forall2_impl; [exact Hall|].
    intros cin cout. unfold round_coord.
    destruct cin as [|x [|y rest]]; simpl; try discriminate.
    intros [= <-]. exists x, y, rest. split; [reflexivity|].
    destruct rest; reflexivity.
Qed.

Lemma equal_crs_exports_rounded_input_witness :
  exists f,
    _asset_to_feature example_library default_options pipe_3d = Some f
    /\ geometry f
       = LineString [ [PyFloat 10.5; PyFloat 20.25; PyFloat (-2)];
                      [PyFloat 30.5; PyFloat 20.25; PyFloat (-2.5)] ]
    /\ _init_transformer example_library default_options = None.
Proof.
  eexists. split; [reflexivity|]. split; [reflexivity|].
  refine (proj1 (equal_crs_exports_rounded_input
                   example_library default_options pipe_3d _ eq_refl eq_refl)).
Defined.

(** C10. Every coordinate of every feature the adapter emits has exactly
    three components; a 2-component input coordinate [x, y] comes out as
    the rounded reprojection of x and y followed by the literal 0. *)
Theorem feature_coordinates_have_three_components
    (L : Library) (options : ExportOptions) (assets : list Asset) (f : Feature) :
  In f (collect_features L options assets) ->
  Forall (fun c => length c = 3) (geometry_coordinates (geometry f))
  /\ exists asset,
       In asset assets
       /\ _asset_to_feature L options asset = Some f
       /\ Forall2
            (fun cin cout =>
               forall a b, cin = [a; b] ->
                 let '(x, y) := match _init_transformer L options with
                                | Some tr => tr a b
                                | None => (a, b)
                                end in
                 cout = [ PyFloat (round_float L x (precision options));
                          PyFloat (round_float L y (precision options));
                          PyInt 0 ])
            (_extract_coordinates asset) (geometry_coordinates (geometry f)).
Proof.
  intros Hin. unfold collect_features in Hin.
  apply list_elem_of_In, list_elem_of_omap in Hin as (asset & Hasset & Hf).
  apply list_elem_of_In in Hasset.
  pose proof (asset_to_feature_Some L options asset f Hf) as (_ & _ & Hall).
  split.
  - clear Hf. induction Hall as [|cin cout cins couts Hr _ IH]; constructor.
    + eapply round_coord_length; exact Hr.
    + exact IH.
  - exists asset. split; [exact Hasset|]. split; [exact Hf|].
    eapply Forall2_impl; [exact Hall|].
    intros cin cout Hr a b ->. unfold _transform_coord in Hr.
    destruct (_init_transformer L options) as [tr|].
    + destruct (tr a b) as [x y]. unfold round_coord in Hr. simpl in Hr.
      rewrite round_int_zero in Hr. congruence.
    + unfold round_coord in Hr. simpl in Hr. congruence.
Qed.

Lemma feature_coordinates_have_three_components_witness :
  exists f,
    In f (collect_features example_library default_options [pipe_2d])
    /\ geometry f = LineString [ [PyFloat 1; PyFloat 2; PyInt 0];
                                 [PyFloat 3; PyFloat 4; PyInt 0] ]
    /\ Forall (fun c => length c = 3) (geometry_coordinates (geometry f)).
Proof.
  eexists. split; [left; reflexivity|]. split; [reflexivity|].
  refine (proj1 (feature_coordinates_have_three_components
                   example_library default_options [pipe_2d] _ _)).
  left. reflexivity.
Defined.

(** C9. For an asset whose [depth_start] and [diameter] are present with
    value 0.0, the vector adapter writes the default depth 1.5 (and the
    default diameter 0.15) and the tabular adapter writes the empty string
    for the diameter: [x or default] takes 0.0 for an absent value. *)
Theorem zero_attribute_replaced_by_fallback (L : Library) :
  (exists g,
     _asset_to_feature L default_options pipe_at_grade
     = Some {| geometry := g;
               f_properties :=
                 [ ("id", JStr "a3"); ("type", JStr "gas"); ("label", JStr "");
                   ("layer", JStr "GAS"); ("color", JStr "#FFD700");
                   ("depth_start", JNum 1.5); ("depth_end", JNum 1.5);
                   ("depth_unit", JStr "meters");
                   ("diameter", JNum 0.15); ("diameter_unit", JStr "meters");
                   ("material", JStr "") ] |})
  /\ csv_row pipe_at_grade
     = Some [ CStr "a3"; CStr "gas"; CStr ""; CStr "GAS";
              CNum (PyFloat 2); CNum (PyFloat 1); CNum (PyInt 0);
              CNum (PyFloat 4); CNum (PyFloat 3); CNum (PyInt 0);
              CStr ""; CStr ""; CStr "" ].
Proof. split; [eexists; reflexivity | reflexivity]. Qed.

(** The fallback is taken for every present zero, whatever the options. *)
Lemma or_float_zero (d : float) : or_float (Some 0%float) d = d.
Proof. reflexivity. Qed.

End ExportProps.

(** ** Solid generation and the mesh adapters *)

Module MeshProps.
Import Py Models Exporters FloatFacts Samples ExportProps.

(** A point with two or three components has three once the depth is
    appended. *)
Lemma with_depth_three options (p : vec) depth :
  length p = 2 \/ length p = 3 ->
  exists a0 a1 a2, with_depth options p depth = [a0; a1; a2].
Proof.
  unfold with_depth.
  destruct p as [|a0 [|a1 [|a2 [|a3 p]]]]; simpl; intros [H|H]; try discriminate H.
  - eauto.
  - eauto.
Qed.

(** The cylinder requested for a segment between two 3-component points
    that is not degenerate. *)
Lemma create_cylinder_3d L n (a0 a1 a2 b0 b1 b2 r : float) :
  let direction := [b0 - a0; b1 - a1; b2 - a2]%float in
  let len := np_norm direction in
  (len <? 0.001)%float = false ->
  exists axis,
    np_cross_z (np_scale PrimFloat.div direction len) = Some axis
    /\ _create_cylinder L n [a0; a1; a2] [b0; b1; b2] r
       = Some (Some {| radius := r; height := len; sections := n;
                       rotation :=
                         if (0.001 <? np_norm axis)%float
                         then Some (arccos L (np_clip (np_dot_z (np_scale PrimFloat.div direction len)) (-1) 1),
                                    np_scale PrimFloat.div axis (np_norm axis))
                         else None;
                       translation :=
                         np_scale PrimFloat.div [a0 + b0; a1 + b1; a2 + b2]%float 2 |}).
Proof.
  intros direction len Hlen. eexists. split; [reflexivity|].
  unfold _create_cylinder.
  change (np_binary PrimFloat.sub [b0; b1; b2] [a0; a1; a2]) with (Some direction).
  cbv beta iota. fold len. rewrite Hlen. reflexivity.
Qed.

(** A degenerate segment is skipped. *)
Lemma create_cylinder_degenerate L n start end_ r direction :
  np_binary PrimFloat.sub end_ start = Some direction ->
  (np_norm direction <? 0.001)%float = true ->
  _create_cylinder L n start end_ r = Some None.
Proof.
  intros Hd Hlen. unfold _create_cylinder. rewrite Hd, Hlen. reflexivity.
Qed.

(** A mesh returned for an asset has at least one segment. *)
Lemma asset_to_mesh_nonempty L options n asset m :
  _asset_to_mesh L options n asset = Some m -> m <> [].
Proof.
  unfold _asset_to_mesh.
  destruct (Nat.ltb _ 2); [discriminate|].
  destruct (_hex_to_rgba _); [|discriminate].
  destruct (segments_of _ _ _ _ _ _ _) as [[|s segs]|]; try discriminate.
  intros [= <-]. discriminate.
Qed.

Lemma collect_meshes_nonempty L options n assets :
  Forall (fun m => m <> []) (collect_meshes L options n assets).
Proof.
  apply Forall_forall. intros m Hm. unfold collect_meshes in Hm.
  apply list_elem_of_omap in Hm as (asset & _ & Hm).
  eapply asset_to_mesh_nonempty; exact Hm.
Qed.

Lemma concat_nonempty {A} (m : list A) (ms : list (list A)) :
  m <> [] -> concat (m :: ms) <> [].
Proof. destruct m; [congruence | discriminate]. Qed.


Lemma or_float_diameter (d : float) : or_float (Some 0.3%float) d = 0.3%float.
Proof. reflexivity. Qed.

Lemma half_of_diameter : (0.3 / 2)%float = 0.15%float.
Proof. reflexivity. Qed.

(** C7, as stated, fails: a two-point asset of diameter 0.3 whose
    segment is 10 units long yields no cylinder at all when its colour has
    three digits (the conversion of the colour raises), and none when its
    points have four components (the cross product raises). *)
Lemma ten_unit_segment_without_cylinder :
  (_extract_coordinates white_riser = [[5; 5; -10]; [5; 5; 0]]%float
   /\ diameter white_riser = Some 0.3%float
   /\ np_norm (zip_with PrimFloat.sub [5; 5; 0] [5; 5; -10])%float = 10%float
   /\ _asset_to_mesh example_library default_options 8 white_riser = None)
  /\ (_extract_coordinates measured_pipe = [[0; 0; -2; 7]; [10; 0; -2; 7]]%float
      /\ diameter measured_pipe = Some 0.3%float
      /\ np_norm (zip_with PrimFloat.sub [10; 0; -2; 7] [0; 0; -2; 7])%float = 10%float
      /\ _asset_to_mesh example_library default_options 8 measured_pipe = None).
Proof. repeat split; vm_compute; reflexivity. Qed.

(** C7, amended. An asset with two points (of two or three components
    each) whose segment is 10 units long, with diameter 0.3 and a colour
    that [_hex_to_rgba] converts, yields exactly one cylinder, of radius
    0.15 and height 10; the cylinder is not rotated when the norm of the
    cross product of the vertical axis with the normalised direction is at
    most 0.001. *)
Theorem ten_unit_segment_yields_one_cylinder
    (L : Library) (options : ExportOptions) (n : nat) (asset : Asset)
    (p q : vec) (colour : list Z) :
  _extract_coordinates asset = [p; q] ->
  (length p = 2 \/ length p = 3) ->
  (length q = 2 \/ length q = 3) ->
  diameter asset = Some 0.3%float ->
  _hex_to_rgba (display_color asset) = Some colour ->
  let start := with_depth options p (depth_start asset) in
  let end_ := with_depth options q (depth_end asset) in
  let direction := zip_with PrimFloat.sub end_ start in
  np_norm direction = 10%float ->
  exists cyl,
    _asset_to_mesh L options n asset = Some [(cyl, colour)]
    /\ radius cyl = 0.15%float
    /\ height cyl = 10%float
    /\ (forall axis,
          np_cross_z (np_scale PrimFloat.div direction 10) = Some axis ->
          (np_norm axis <=? 0.001)%float = true ->
          rotation cyl = None).
Proof.
  intros Hcoords Hp Hq Hdiam Hcolour start end_ direction Hnorm.
  destruct (with_depth_three options p (depth_start asset) Hp) as (a0 & a1 & a2 & Hs).
  destruct (with_depth_three options q (depth_end asset) Hq) as (b0 & b1 & b2 & He).
  subst direction start end_. rewrite Hs, He in Hnorm |- *.
  change (zip_with PrimFloat.sub [b0; b1; b2] [a0; a1; a2])
    with [b0 - a0; b1 - a1; b2 - a2]%float in Hnorm |- *.
  assert (Hlen : (np_norm [b0 - a0; b1 - a1; b2 - a2]%float <? 0.001)%float = false)
    by (rewrite Hnorm; reflexivity).
  destruct (create_cylinder_3d L n a0 a1 a2 b0 b1 b2
              (or_float (diameter asset) (default_diameter options) / 2)%float Hlen)
    as (axis0 & Haxis0 & Hcyl).
  eexists. split; [|split; [|split]].
  - unfold _asset_to_mesh. rewrite Hcoords, Hcolour. cbn [length Nat.ltb Nat.leb segments_of].
    rewrite Hs, He, Hcyl. reflexivity.
  - cbn [radius]. rewrite Hdiam, or_float_diameter. apply half_of_diameter.
  - cbn [height]. exact Hnorm.
  - intros axis Haxis Hpar. cbn [rotation].
    rewrite Hnorm in Haxis0. rewrite Haxis0 in Haxis. injection Haxis as <-.
    rewrite (leb_not_gtb _ _ Hpar). reflexivity.
Qed.

Lemma ten_unit_segment_yields_one_cylinder_witness :
  exists cyl,
    _asset_to_mesh example_library default_options 8 riser
    = Some [(cyl, [139; 69; 19; 255]%Z)]
    /\ radius cyl = 0.15%float
    /\ height cyl = 10%float
    /\ rotation cyl = None.
Proof.
  destruct (ten_unit_segment_yields_one_cylinder example_library default_options 8
              riser [5; 5; -10]%float [5; 5; 0]%float [139; 69; 19; 255]%Z
              eq_refl (or_intror eq_refl) (or_intror eq_refl) eq_refl eq_refl eq_refl)
    as (cyl & Hmesh & Hr & Hh & Hrot).
  exists cyl. repeat split; try assumption.
  eapply Hrot; [vm_compute; reflexivity | reflexivity].
Defined.


Lemma segments_of_step L options n asset r colour p q rest :
  segments_of L options n asset r colour (p :: q :: rest)
  = match _create_cylinder L n (with_depth options p (depth_start asset))
                               (with_depth options q (depth_end asset)) r with
    | None => None
    | Some segment =>
        match segments_of L options n asset r colour (q :: rest) with
        | None => None
        | Some segments =>
            Some (match segment with
                  | Some cyl => (cyl, colour) :: segments
                  | None => segments
                  end)
        end
    end.
Proof. reflexivity. Qed.

Lemma segments_of_degenerate L options n asset r colour coords :
  (forall i p q, coords !! i = Some p -> coords !! S i = Some q ->
     exists direction,
       np_binary PrimFloat.sub (with_depth options q (depth_end asset))
                               (with_depth options p (depth_start asset))
       = Some direction
       /\ (np_norm direction <? 0.001)%float = true) ->
  segments_of L options n asset r colour coords = Some [].
Proof.
  induction coords as [|p [|q rest] IH]; intros Hdeg; try reflexivity.
  destruct (Hdeg 0 p q eq_refl eq_refl) as (direction & Hd & Hlen).
  rewrite segments_of_step.
  rewrite (create_cylinder_degenerate L n _ _ r direction Hd Hlen).
  rewrite IH; [reflexivity|].
  intros i p' q' Hp' Hq'. apply (Hdeg (S i)); assumption.
Qed.

Lemma asset_to_mesh_degenerate L options n asset :
  all_pairs_degenerate options asset -> _asset_to_mesh L options n asset = None.
Proof.
  intros Hdeg. unfold _asset_to_mesh.
  destruct (Nat.ltb _ 2); [reflexivity|].
  destruct (_hex_to_rgba _); [|reflexivity].
  rewrite (segments_of_degenerate L options n asset _ _ _ Hdeg). reflexivity.
Qed.

Lemma collect_meshes_degenerate L options n assets :
  Forall (all_pairs_degenerate options) assets ->
  collect_meshes L options n assets = [].
Proof.
  induction 1 as [|asset assets Hdeg _ IH]; [reflexivity|].
  unfold collect_meshes in *. cbn [omap list_omap].
  rewrite (asset_to_mesh_degenerate L options n asset Hdeg). exact IH.
Qed.

(** C8. The direct mesh adapter returns false and writes nothing whenever
    no solid was generated from the asset set, in particular when every
    consecutive point pair of every asset is degenerate; when it returns
    true it has written one file holding at least one solid; and, the mesh
    library being importable and the write succeeding, it returns false
    exactly when no solid was generated. *)
Theorem gltf_export_fails_iff_no_solid
    (L : Library) (options : ExportOptions) (env : MeshEnv)
    (assets : list Asset) (output_path : string) :
  (collect_meshes L options 8 assets = [] ->
   gltf_export L options env assets output_path = (false, []))
  /\ (Forall (all_pairs_degenerate options) assets ->
      gltf_export L options env assets output_path = (false, []))
  /\ (fst (gltf_export L options env assets output_path) = false ->
      snd (gltf_export L options env assets output_path) = [])
  /\ (fst (gltf_export L options env assets output_path) = true ->
      exists solid solids,
        snd (gltf_export L options env assets output_path)
        = [(output_path, solid :: solids)])
  /\ (trimesh_installed env = true -> write_ok env = true ->
      (fst (gltf_export L options env assets output_path) = false
       <-> collect_meshes L options 8 assets = [])).
Proof.
  assert (Hnone : collect_meshes L options 8 assets = [] ->
                  gltf_export L options env assets output_path = (false, [])).
  { intros H. unfold gltf_export. rewrite H. destruct (negb _); reflexivity. }
  split; [exact Hnone|]. split; [|split; [|split]].
  - intros Hdeg. apply Hnone, collect_meshes_degenerate, Hdeg.
  - unfold gltf_export.
    destruct (negb _); [reflexivity|].
    destruct (collect_meshes L options 8 assets); [reflexivity|].
    destruct (write_ok env); [discriminate | reflexivity].
  - unfold gltf_export.
    destruct (negb _); [discriminate|].
    pose proof (collect_meshes_nonempty L options 8 assets) as Hne.
    destruct (collect_meshes L options 8 assets) as [|m ms]; [discriminate|].
    destruct (write_ok env); [|discriminate]. intros _.
    apply Forall_cons in Hne as [Hm _].
    destruct m as [|solid solids]; [congruence|].
    exists solid, (solids ++ concat ms). reflexivity.
  - intros Ht Hw. split; [|intros H; rewrite (Hnone H); reflexivity].
    unfold gltf_export. rewrite Ht, Hw. cbn [negb].
    destruct (collect_meshes L options 8 assets); [reflexivity | discriminate].
Qed.


Example collapsed_pipe_degenerate :
  all_pairs_degenerate default_options collapsed_pipe.
Proof.
  intros i p q Hp Hq. destruct i as [|[|i]]; try discriminate.
  injection Hp as <-. injection Hq as <-.
  eexists. split; reflexivity.
Qed.

Example collapsed_pipe_export_fails :
  gltf_export example_library default_options env_ok
    [collapsed_pipe] "out/site.glb" = (false, []).
Proof. reflexivity. Qed.

Lemma gltf_export_fails_iff_no_solid_witness :
  gltf_export example_library default_options env_ok
    [collapsed_pipe] "out/site.glb" = (false, [])
  /\ (exists solid solids,
        snd (gltf_export example_library default_options env_ok
               [collapsed_pipe; riser] "out/site.glb")
        = [("out/site.glb", solid :: solids)]).
Proof.
  split.
  - apply (proj1 (proj2 (gltf_export_fails_iff_no_solid
                           example_library default_options env_ok
                           [collapsed_pipe] "out/site.glb"))).
    constructor; [exact collapsed_pipe_degenerate | constructor].
  - apply (proj1 (proj2 (proj2 (proj2 (gltf_export_fails_iff_no_solid
                           example_library default_options env_ok
                           [collapsed_pipe; riser] "out/site.glb"))))).
    reflexivity.
Defined.

End MeshProps.

(** ** The external-tool-mediated mesh adapter *)

Module FbxProps.
Import Py Models Exporters FbxExporter Samples ExportProps MeshProps.

(** C3, as stated, fails: on a timeout and on exit status 1 the export of
    a valid pipe returns false without any export call of the mesh
    library, although the fallback on the same input succeeds; and with the
    tool absent and an asset set that yields no mesh, the fallback returns
    false instead of writing an alternate-extension file. *)
Lemma no_fallback_after_failed_run :
  (fst (export example_library default_options env_timeout [pipe_3d] "out/site.fbx")
   = false
   /\ existsb is_mesh_export
        (snd (export example_library default_options env_timeout [pipe_3d]
                "out/site.fbx")) = false)
  /\ (fst (export example_library default_options env_exit_1 [pipe_3d] "out/site.fbx")
      = false
      /\ existsb is_mesh_export
           (snd (export example_library default_options env_exit_1 [pipe_3d]
                   "out/site.fbx")) = false)
  /\ fst (_export_fallback example_library default_options env_timeout
            [pipe_3d] "out/site.fbx") = true
  /\ export example_library default_options env_no_tool [collapsed_pipe]
       "out/site.fbx" = (false, []).
Proof. repeat split; vm_compute; reflexivity. Qed.

(** C3, amended. The adapter uses the mesh-library fallback exactly when
    the tool was not found.  When the tool is present and some asset has
    coordinates, a run that times out or cannot be launched makes the
    export return false after the two temporary files, the output directory
    and the run, the temporary files being left in place; a run that exits
    with a nonzero status makes it return false after the same calls and
    the removal of the two temporary files.  No export call of the mesh
    library is made in either case.  Within the fallback, when the mesh
    library is installed, at least one mesh was generated and the FBX
    export raises, the mesh is exported a second time, to the path with
    ".fbx" replaced by ".obj" and without a file type, and the value
    returned is true exactly when this second export does not raise; when
    no mesh was generated the fallback returns false and makes no call. *)
Theorem fbx_export_fallback_policy
    (L : Library) (options : ExportOptions) (env : FbxEnv)
    (assets : list Asset) (output_path : string) :
  (blender_path env = None ->
   export L options env assets output_path
   = _export_fallback L options env assets output_path)
  /\ (forall path, blender_path env = Some path ->
      export L options env assets output_path
      = _export_with_blender options env assets output_path)
  /\ (forall d ds, omap (asset_datum options) assets = d :: ds ->
      let data_file :=
        DataFile (d :: ds) (default_depth options) (default_diameter options) in
      let prepared :=
        [CreateTemp data_file; CreateTemp ScriptFile; Mkdir output_path;
         RunBlender output_path] in
      (blender_run env = TimeoutExpired \/ blender_run env = LaunchError ->
       _export_with_blender options env assets output_path = (false, prepared))
      /\ (forall returncode,
            blender_run env = Exited returncode -> returncode <> 0%Z ->
            _export_with_blender options env assets output_path
            = (false, prepared ++ [Unlink data_file; Unlink ScriptFile])))
  /\ (forall m ms,
        FbxExporter.trimesh_installed env = true ->
        collect_meshes L options 12 assets = m :: ms ->
        trimesh_export env output_path (Some "fbx") = false ->
        let obj_path := replace ".fbx" ".obj" output_path in
        _export_fallback L options env assets output_path
        = (trimesh_export env obj_path None,
           [Mkdir output_path;
            MeshExport output_path (Some "fbx") (concat (m :: ms));
            MeshExport obj_path None (concat (m :: ms))]))
  /\ (collect_meshes L options 12 assets = [] ->
      _export_fallback L options env assets output_path = (false, [])).
Proof.
  split; [|split; [|split; [|split]]].
  - intros H. unfold export. rewrite H. reflexivity.
  - intros path H. unfold export. rewrite H. reflexivity.
  - intros d ds Hdata data_file prepared. unfold _export_with_blender.
    rewrite Hdata. fold data_file. split.
    + intros [-> | ->]; reflexivity.
    + intros returncode -> Hrc. apply Z.eqb_neq in Hrc. rewrite Hrc. reflexivity.
  - intros m ms Ht Hm Hf obj_path. unfold _export_fallback.
    rewrite Ht, Hm, Hf. fold obj_path.
    destruct (trimesh_export env obj_path None); reflexivity.
  - intros Hm. unfold _export_fallback. rewrite Hm.
    destruct (negb _); reflexivity.
Qed.

Lemma fbx_export_fallback_policy_witness :
  (exists data_file,
     _export_with_blender default_options env_timeout [pipe_3d] "out/site.fbx"
     = (false, [CreateTemp data_file; CreateTemp ScriptFile; Mkdir "out/site.fbx";
                RunBlender "out/site.fbx"]))
  /\ (exists data_file,
        _export_with_blender default_options env_exit_1 [pipe_3d] "out/site.fbx"
        = (false, [CreateTemp data_file; CreateTemp ScriptFile; Mkdir "out/site.fbx";
                   RunBlender "out/site.fbx"; Unlink data_file; Unlink ScriptFile]))
  /\ (exists m,
        _export_fallback example_library default_options env_no_tool
          [pipe_3d] "out/site.fbx"
        = (true, [Mkdir "out/site.fbx"; MeshExport "out/site.fbx" (Some "fbx") m;
                  MeshExport "out/site.obj" None m])).
Proof.
  split; [|split].
  - eexists.
    refine (proj1 (proj1 (proj2 (proj2 (fbx_export_fallback_policy
              example_library default_options env_timeout [pipe_3d] "out/site.fbx")))
              _ [] eq_refl) (or_introl eq_refl)).
  - eexists.
    refine (proj2 (proj1 (proj2 (proj2 (fbx_export_fallback_policy
              example_library default_options env_exit_1 [pipe_3d] "out/site.fbx")))
              _ [] eq_refl) 1%Z eq_refl _).
    discriminate.
  - eexists.
    refine (proj1 (proj2 (proj2 (proj2 (fbx_export_fallback_policy
              example_library default_options env_no_tool [pipe_3d] "out/site.fbx"))))
              _ [] eq_refl _ eq_refl).
    vm_compute. reflexivity.
Defined.

End FbxProps.

(** ** The order of binary64 numbers *)

Module FloatOrder.

(** The comparison of two finite numbers of one sign: exponents first, then
    mantissas. *)
Lemma lex_Lt (e : Z) (m : positive) (e' : Z) (m' : positive) :
  match (e ?= e')%Z with
  | Lt => Lt
  | Gt => Gt
  | Eq => Pos.compare_cont Eq m m'
  end = Lt
  <-> (e < e')%Z \/ (e = e' /\ (m < m')%positive).
Proof.
  change (Pos.compare_cont Eq m m') with (Pos.compare m m').
  destruct (Z.compare_spec e e'); rewrite ?Pos.compare_lt_iff;
    split; intros H'; try discriminate; try lia; try (exfalso; lia); auto.
Qed.

Lemma lex_Gt (e : Z) (m : positive) (e' : Z) (m' : positive) :
  match (e ?= e')%Z with
  | Lt => Gt
  | Gt => Lt
  | Eq => CompOpp (Pos.compare_cont Eq m m')
  end = Lt
  <-> (e' < e)%Z \/ (e = e' /\ (m' < m)%positive).
Proof.
  change (Pos.compare_cont Eq m m') with (Pos.compare m m').
  destruct (Z.compare_spec e e').
  - destruct (Pos.compare_spec m m'); simpl;
      split; intros H'; try discriminate; try lia; try (exfalso; lia); auto.
  - split; intros H'; [discriminate | exfalso; lia].
  - split; intros H'; [lia | reflexivity].
Qed.

Lemma SFltb_Lt (x y : spec_float) : SFltb x y = true <-> SFcompare x y = Some Lt.
Proof. unfold SFltb. destruct (SFcompare x y) as [[]|]; split; congruence. Qed.

Lemma SFcompare_Lt_trans (x y z : spec_float) :
  SFcompare x y = Some Lt -> SFcompare y z = Some Lt -> SFcompare x z = Some Lt.
Proof.
  destruct x as [sx|sx| |sx mx ex], y as [sy|sy| |sy my ey], z as [sz|sz| |sz mz ez];
    simpl;
    try discriminate; try reflexivity;
    try (destruct sx; discriminate); try (destruct sy; discriminate);
    try (destruct sz; discriminate);
    try (destruct sx, sy; discriminate); try (destruct sy, sz; discriminate);
    try (destruct sx, sz; (discriminate || reflexivity));
    try (destruct sx, sy, sz; (discriminate || reflexivity)).
  all: destruct sx, sy, sz; try discriminate; try reflexivity;
    intros [= H1] [= H2]; f_equal;
    rewrite ?lex_Lt, ?lex_Gt in *; lia.
Qed.

Lemma SFcompare_refl_not_Lt (x : spec_float) : SFcompare x x <> Some Lt.
Proof.
  destruct x as [s|s| |s m e]; simpl; try discriminate.
  - destruct s; discriminate.
  - destruct s; intros [= H]; rewrite ?lex_Lt, ?lex_Gt in H; lia.
Qed.

(** [<] on floats is transitive and irreflexive. *)
Lemma ltb_trans (x y z : float) :
  (x <? y)%float = true -> (y <? z)%float = true -> (x <? z)%float = true.
Proof.
  rewrite !FloatAxioms.ltb_spec, !SFltb_Lt. apply SFcompare_Lt_trans.
Qed.

Lemma ltb_irrefl (x : float) : (x <? x)%float = false.
Proof.
  rewrite FloatAxioms.ltb_spec. apply not_true_is_false. rewrite SFltb_Lt.
  apply SFcompare_refl_not_Lt.
Qed.

End FloatOrder.

(** ** Further properties of the drawing parser *)

Module DwgParserMore.
Import Py DwgParser FloatFacts FloatOrder Samples DwgParserProps.

(** *** Extraction *)

Lemma extract_entities_from_app (a b : list DxfEntity) :
  _extract_entities_from (a ++ b)
  = _extract_entities_from a ++ _extract_entities_from b.
Proof.
  induction a as [|entity a IH]; simpl; [reflexivity|].
  destruct (_extract_single_entity entity); rewrite IH; reflexivity.
Qed.

Lemma parse_bounds fname doc :
  bounds (parse fname (Loaded doc)) = _calculate_bounds (_extract_entities doc).
Proof.
  unfold parse. destruct (_detect_crs doc), (_detect_rotation doc). reflexivity.
Qed.

Lemma parse_layers fname doc :
  layers (parse fname (Loaded doc)) = doc_layers doc.
Proof.
  unfold parse. destruct (_detect_crs doc), (_detect_rotation doc). reflexivity.
Qed.

(** X1. A modelspace entity for which extraction gives no record (an
    unsupported primitive, a block insertion, an entity whose access
    raises, a polyline without vertices) leaves no trace: the entities, the
    bounding box and the depth flag of the parse are those of the drawing
    without it. *)
Theorem unextractable_entity_leaves_no_trace
    (fname : string) (doc doc' : Drawing) (entity : DxfEntity)
    (before after : list DxfEntity) :
  _extract_single_entity entity = None ->
  modelspace doc = before ++ entity :: after ->
  modelspace doc' = before ++ after ->
  doc_layers doc' = doc_layers doc ->
  entities (parse fname (Loaded doc)) = entities (parse fname (Loaded doc'))
  /\ bounds (parse fname (Loaded doc)) = bounds (parse fname (Loaded doc'))
  /\ r_has_depth (parse fname (Loaded doc)) = r_has_depth (parse fname (Loaded doc')).
Proof.
  intros Hnone Hm Hm' Hl.
  assert (He : _extract_entities doc = _extract_entities doc').
  { unfold _extract_entities. rewrite Hm, Hm', !extract_entities_from_app.
    simpl. rewrite Hnone. reflexivity. }
  rewrite !parse_entities, !parse_bounds, !parse_has_depth.
  unfold _extract_layers. rewrite He, Hl. auto.
Qed.


Lemma unextractable_entity_leaves_no_trace_witness :
  entities (parse "plan.dxf" (Loaded annotated_drawing))
  = entities (parse "plan.dxf" (Loaded plain_drawing))
  /\ bounds (parse "plan.dxf" (Loaded annotated_drawing))
     = bounds (parse "plan.dxf" (Loaded plain_drawing))
  /\ r_has_depth (parse "plan.dxf" (Loaded annotated_drawing))
     = r_has_depth (parse "plan.dxf" (Loaded plain_drawing)).
Proof.
  apply (unextractable_entity_leaves_no_trace "plan.dxf"
           annotated_drawing plain_drawing (Other "5F" "NOTES" "TEXT")
           [Line "5E" "WATER_MAIN" (0, 0, -1.5)%float (10, 5, -1.5)%float]
           [Circle "60" "VALVES" (-3, 8, 0)%float 0.5%float]);
    reflexivity.
Defined.

Ltac in_list := simpl; repeat (first [left; reflexivity | right]).

(** The shape extraction gives a record, by kind. *)
Lemma extract_single_shape entity e :
  _extract_single_entity entity = Some e ->
  In (entity_type e) ["LINE"; "LWPOLYLINE"; "POLYLINE"; "CIRCLE"; "ARC"]
  /\ (entity_type e = "LINE" -> length (points e) = 2)
  /\ (entity_type e = "CIRCLE" \/ entity_type e = "ARC" ->
      length (points e) = 1 /\ exists r, In ("radius", PNum r) (properties e)).
Proof.
  destruct entity; cbv beta iota delta [_extract_single_entity build_entity];
    try discriminate.
  - intros [= <-]. simpl. split; [in_list|]. split; [reflexivity|].
    intros [H|H]; discriminate H.
  - destruct (map _ xy); [discriminate|]. intros [= <-]. simpl.
    split; [in_list|]. split; [discriminate|]. intros [H|H]; discriminate H.
  - destruct vertices; [discriminate|]. intros [= <-]. simpl.
    split; [in_list|]. split; [discriminate|]. intros [H|H]; discriminate H.
  - intros [= <-]. simpl. split; [in_list|]. split; [discriminate|].
    intros _. split; [reflexivity|]. exists radius. auto.
  - intros [= <-]. simpl. split; [in_list|]. split; [discriminate|].
    intros _. split; [reflexivity|]. exists radius. auto.
Qed.

(** Classification changes the suggested type and nothing else. *)
Lemma classify_one_fields lt e :
  handle (classify_one lt e) = handle e
  /\ entity_type (classify_one lt e) = entity_type e
  /\ layer (classify_one lt e) = layer e
  /\ points (classify_one lt e) = points e
  /\ properties (classify_one lt e) = properties e
  /\ has_depth (classify_one lt e) = has_depth e
  /\ depth_values (classify_one lt e) = depth_values e.
Proof. unfold classify_one. destruct (lt !! layer e); simpl; auto 10. Qed.

Lemma parse_entity_origin fname doc e :
  In e (entities (parse fname (Loaded doc))) ->
  exists entity e0,
    In entity (modelspace doc)
    /\ _extract_single_entity entity = Some e0
    /\ e = classify_one (build_layer_types (doc_layers doc)) e0.
Proof.
  rewrite parse_entities. unfold _classify_entities, _extract_entities, _extract_layers.
  intros He. apply in_map_iff in He as (e0 & <- & He0).
  induction (modelspace doc) as [|entity rest IH]; [destruct He0|].
  simpl in He0. destruct (_extract_single_entity entity) as [e1|] eqn:E.
  - destruct He0 as [<- | He0].
    + exists entity, e1. split; [left; reflexivity | auto].
    + destruct (IH He0) as (entity' & e0' & Hin & Hex & Heq).
      exists entity', e0'. split; [right; exact Hin | auto].
  - destruct (IH He0) as (entity' & e0' & Hin & Hex & Heq).
    exists entity', e0'. split; [right; exact Hin | auto].
Qed.

(** X2. Every entity of a parse result has at least one point and one of
    the five supported kinds; a LINE has exactly two points; a CIRCLE or
    an ARC has exactly one point, its centre, and carries a radius; its
    [depth_values] are the z of its points that differ from zero, in
    order, and [has_depth] says whether there is any. *)
Theorem parsed_entities_well_formed
    (fname : string) (doc : Drawing) (e : ExtractedEntity) :
  In e (entities (parse fname (Loaded doc))) ->
  points e <> []
  /\ In (entity_type e) ["LINE"; "LWPOLYLINE"; "POLYLINE"; "CIRCLE"; "ARC"]
  /\ (entity_type e = "LINE" -> length (points e) = 2)
  /\ (entity_type e = "CIRCLE" \/ entity_type e = "ARC" ->
      length (points e) = 1 /\ exists r, In ("radius", PNum r) (properties e))
  /\ depth_values e
     = List.filter (fun z => negb (z =? 0)%float) (map pz (points e))
  /\ (has_depth e = true <-> depth_values e <> []).
Proof.
  intros He. apply parse_entity_origin in He as (entity & e0 & _ & Hex & ->).
  destruct (classify_one_fields (build_layer_types (doc_layers doc)) e0)
    as (_ & Hty & _ & Hpts & Hprops & Hhd & Hdv).
  rewrite Hty, Hpts, Hprops, Hhd, Hdv.
  destruct (extract_single_shape entity e0 Hex) as (Hkind & Hline & Hround).
  destruct (extract_single_fresh entity e0 Hex) as (Hne & _ & Hd & Hh).
  split; [exact Hne|]. split; [exact Hkind|]. split; [exact Hline|].
  split; [exact Hround|]. split; [exact Hd|].
  rewrite Hh. destruct (depth_values e0) as [|z zs]; simpl; split.
  - discriminate.
  - intros H. exfalso. apply H. reflexivity.
  - intros _. discriminate.
  - reflexivity.
Qed.

Lemma parsed_entities_well_formed_witness :
  exists e,
    In e (entities (parse "plan.dxf" (Loaded annotated_drawing)))
    /\ entity_type e = "CIRCLE"
    /\ length (points e) = 1.
Proof.
  eexists. split; [right; left; reflexivity|]. split; [reflexivity|].
  match goal with
  | |- length (points ?e) = 1 =>
      destruct (parsed_entities_well_formed "plan.dxf" annotated_drawing e)
        as (_ & _ & _ & Hround & _)
  end.
  - right. left. reflexivity.
  - apply Hround. left. reflexivity.
Defined.


(** *** Bounding box *)

Lemma fold_min_invariant (l : list float) :
  forall (m : float) (seen : list float),
    In m seen ->
    (forall y, In y seen -> (y <? m)%float = false) ->
    In (fold_left (fun m y => if (y <? m)%float then y else m) l m) (seen ++ l)
    /\ forall y, In y (seen ++ l) ->
         (y <? fold_left (fun m y => if (y <? m)%float then y else m) l m)%float = false.
Proof.
  induction l as [|z l IH]; intros m seen Hm Hlow.
  - rewrite app_nil_r. auto.
  - simpl.
    replace (seen ++ z :: l) with ((seen ++ [z]) ++ l)
      by (rewrite <- app_assoc; reflexivity).
    apply IH.
    + destruct (z <? m)%float; apply in_or_app; [right; left; reflexivity | left; exact Hm].
    + intros y Hy. apply in_app_or in Hy as [Hy | [<- | []]].
      * destruct (z <? m)%float eqn:E; [|apply Hlow; exact Hy].
        apply not_true_is_false. intros Hyz.
        pose proof (ltb_trans _ _ _ Hyz E) as Hym.
        rewrite (Hlow y Hy) in Hym. discriminate.
      * destruct (z <? m)%float eqn:E; [apply ltb_irrefl | exact E].
Qed.

Lemma fold_max_invariant (l : list float) :
  forall (m : float) (seen : list float),
    In m seen ->
    (forall y, In y seen -> (m <? y)%float = false) ->
    In (fold_left (fun m y => if (m <? y)%float then y else m) l m) (seen ++ l)
    /\ forall y, In y (seen ++ l) ->
         (fold_left (fun m y => if (m <? y)%float then y else m) l m <? y)%float = false.
Proof.
  induction l as [|z l IH]; intros m seen Hm Hup.
  - rewrite app_nil_r. auto.
  - simpl.
    replace (seen ++ z :: l) with ((seen ++ [z]) ++ l)
      by (rewrite <- app_assoc; reflexivity).
    apply IH.
    + destruct (m <? z)%float; apply in_or_app; [right; left; reflexivity | left; exact Hm].
    + intros y Hy. apply in_app_or in Hy as [Hy | [<- | []]].
      * destruct (m <? z)%float eqn:E; [|apply Hup; exact Hy].
        apply not_true_is_false. intros Hzy.
        pose proof (ltb_trans _ _ _ E Hzy) as Hmy.
        rewrite (Hup y Hy) in Hmy. discriminate.
      * destruct (m <? z)%float eqn:E; [apply ltb_irrefl | exact E].
Qed.

(** [min] returns an element of the list below which no element lies;
    [max] one above which no element lies. *)
Lemma py_min_spec (x : float) (l : list float) :
  In (py_min x l) (x :: l)
  /\ forall y, In y (x :: l) -> (y <? py_min x l)%float = false.
Proof.
  apply (fold_min_invariant l x [x]); [left; reflexivity|].
  intros y [<- | []]. apply ltb_irrefl.
Qed.

Lemma py_max_spec (x : float) (l : list float) :
  In (py_max x l) (x :: l)
  /\ forall y, In y (x :: l) -> (py_max x l <? y)%float = false.
Proof.
  apply (fold_max_invariant l x [x]); [left; reflexivity|].
  intros y [<- | []]. apply ltb_irrefl.
Qed.

Lemma flat_map_map_points {B} (f : point -> B) (ents : list ExtractedEntity) :
  flat_map (fun e => map f (points e)) ents = map f (flat_map points ents).
Proof.
  induction ents as [|e ents IH]; simpl; [reflexivity|].
  rewrite IH, map_app. reflexivity.
Qed.

(** The bounding box in terms of the list of all points. *)
Lemma calculate_bounds_points (ents : list ExtractedEntity) :
  _calculate_bounds ents
  = match flat_map points ents with
    | [] => None
    | p :: ps =>
        Some (py_min (fst (fst p)) (map (fun q => fst (fst q)) ps),
              py_min (snd (fst p)) (map (fun q => snd (fst q)) ps),
              py_max (fst (fst p)) (map (fun q => fst (fst q)) ps),
              py_max (snd (fst p)) (map (fun q => snd (fst q)) ps))
    end.
Proof.
  unfold _calculate_bounds. rewrite !flat_map_map_points.
  destruct (flat_map points ents); reflexivity.
Qed.


Lemma parse_points fname doc (p : point) :
  (exists e, In e (entities (parse fname (Loaded doc))) /\ In p (points e))
  <-> In p (flat_map points (_extract_entities doc)).
Proof.
  rewrite parse_entities, in_flat_map. unfold _classify_entities. split.
  - intros (e & He & Hp). apply in_map_iff in He as (e0 & <- & He0).
    rewrite classify_one_points in Hp. exists e0. auto.
  - intros (e0 & He0 & Hp).
    exists (classify_one (build_layer_types (_extract_layers doc)) e0).
    rewrite classify_one_points. split; [apply in_map; exact He0 | exact Hp].
Qed.

(** X3. The bounding box of a parse is absent exactly when no entity was
    extracted.  When present, no point of any entity lies below its minima
    or above its maxima, and each of the four bounds is the coordinate of
    some point of some entity. *)
Theorem bounds_enclose_every_point (fname : string) (doc : Drawing) :
  let r := parse fname (Loaded doc) in
  (bounds r = None <-> entities r = [])
  /\ forall min_x min_y max_x max_y,
       bounds r = Some (min_x, min_y, max_x, max_y) ->
       (forall e p, In e (entities r) -> In p (points e) ->
          (fst (fst p) <? min_x)%float = false
          /\ (max_x <? fst (fst p))%float = false
          /\ (snd (fst p) <? min_y)%float = false
          /\ (max_y <? snd (fst p))%float = false)
       /\ (exists e p, In e (entities r) /\ In p (points e) /\ fst (fst p) = min_x)
       /\ (exists e p, In e (entities r) /\ In p (points e) /\ snd (fst p) = min_y)
       /\ (exists e p, In e (entities r) /\ In p (points e) /\ fst (fst p) = max_x)
       /\ (exists e p, In e (entities r) /\ In p (points e) /\ snd (fst p) = max_y).
Proof.
  intros r. subst r. split.
  - rewrite parse_bounds, parse_entities, calculate_bounds_points.
    unfold _classify_entities, _extract_entities.
    pose proof (extract_entities_fresh (modelspace doc)) as Hfresh.
    destruct (_extract_entities_from (modelspace doc)) as [|e0 ents]; simpl.
    + split; reflexivity.
    + apply Forall_cons in Hfresh as [(Hne & _) _].
      destruct (points e0) as [|p ps]; [congruence|]. simpl.
      split; discriminate.
  - intros min_x min_y max_x max_y Hb.
    rewrite parse_bounds, calculate_bounds_points in Hb.
    assert (Hpts : forall p, In p (flat_map points (_extract_entities doc)) ->
                     exists e, In e (entities (parse fname (Loaded doc)))
                               /\ In p (points e))
      by (intros p; apply parse_points).
    assert (Hin : forall e p, In e (entities (parse fname (Loaded doc))) ->
                    In p (points e) ->
                    In p (flat_map points (_extract_entities doc)))
      by (intros e p He Hp; apply (parse_points fname doc p); eauto).
    destruct (flat_map points (_extract_entities doc)) as [|p0 ps]; [discriminate|].
    injection Hb as <- <- <- <-.
    set (xs := map (fun q : point => fst (fst q)) ps) in *.
    set (ys := map (fun q : point => snd (fst q)) ps) in *.
    destruct (py_min_spec (fst (fst p0)) xs) as [Hminx_in Hminx].
    destruct (py_min_spec (snd (fst p0)) ys) as [Hminy_in Hminy].
    destruct (py_max_spec (fst (fst p0)) xs) as [Hmaxx_in Hmaxx].
    destruct (py_max_spec (snd (fst p0)) ys) as [Hmaxy_in Hmaxy].
    assert (Hx : forall p, In p (p0 :: ps) -> In (fst (fst p)) (fst (fst p0) :: xs))
      by (intros p Hp; apply (in_map (fun q : point => fst (fst q)) (p0 :: ps) p Hp)).
    assert (Hy : forall p, In p (p0 :: ps) -> In (snd (fst p)) (snd (fst p0) :: ys))
      by (intros p Hp; apply (in_map (fun q : point => snd (fst q)) (p0 :: ps) p Hp)).
    assert (Hback_x : forall v, In v (fst (fst p0) :: xs) ->
                exists e p, In e (entities (parse fname (Loaded doc)))
                            /\ In p (points e) /\ fst (fst p) = v).
    { intros v Hv.
      apply (in_map_iff (fun q : point => fst (fst q)) (p0 :: ps) v) in Hv
        as (p & <- & Hp).
      destruct (Hpts p Hp) as (e & He & Hpe). exists e, p. auto. }
    assert (Hback_y : forall v, In v (snd (fst p0) :: ys) ->
                exists e p, In e (entities (parse fname (Loaded doc)))
                            /\ In p (points e) /\ snd (fst p) = v).
    { intros v Hv.
      apply (in_map_iff (fun q : point => snd (fst q)) (p0 :: ps) v) in Hv
        as (p & <- & Hp).
      destruct (Hpts p Hp) as (e & He & Hpe). exists e, p. auto. }
    split.
    + intros e p He Hp. pose proof (Hin e p He Hp) as Hp0.
      split; [apply Hminx, Hx, Hp0|].
      split; [apply Hmaxx, Hx, Hp0|].
      split; [apply Hminy, Hy, Hp0 | apply Hmaxy, Hy, Hp0].
    + split; [apply Hback_x, Hminx_in|].
      split; [apply Hback_y, Hminy_in|].
      split; [apply Hback_x, Hmaxx_in | apply Hback_y, Hmaxy_in].
Qed.


Lemma bounds_enclose_every_point_witness :
  bounds (parse "plan.dxf" (Loaded annotated_drawing))
  = Some ((-3)%float, 0%float, 10%float, 8%float)
  /\ exists e p,
       In e (entities (parse "plan.dxf" (Loaded annotated_drawing)))
       /\ In p (points e) /\ fst (fst p) = (-3)%float.
Proof.
  split; [reflexivity|].
  destruct (proj2 (bounds_enclose_every_point "plan.dxf" annotated_drawing)
              (-3)%float 0%float 10%float 8%float eq_refl)
    as (_ & Hmin_x & _).
  exact Hmin_x.
Defined.

(** *** Flags and missing fields *)

Lemma parse_flags fname doc :
  has_crs (parse fname (Loaded doc)) = fst (_detect_crs doc)
  /\ detected_crs (parse fname (Loaded doc)) = snd (_detect_crs doc)
  /\ has_rotation (parse fname (Loaded doc)) = fst (_detect_rotation doc)
  /\ rotation_degrees (parse fname (Loaded doc)) = snd (_detect_rotation doc).
Proof.
  unfold parse. destruct (_detect_crs doc), (_detect_rotation doc). auto.
Qed.

(** X4. For every parsed drawing the list of missing fields is a
    sub-sequence of depth, crs, rotation, labels; it names depth, crs and
    rotation exactly when the corresponding flag of the result is false;
    a reference system is reported exactly when the flag [has_crs] is
    set; and without a detected rotation the reported angle is 0. *)
Theorem missing_fields_mirror_flags (fname : string) (doc : Drawing) :
  let r := parse fname (Loaded doc) in
  sublist (missing_fields r) ["depth"; "crs"; "rotation"; "labels"]
  /\ (In "depth" (missing_fields r) <-> r_has_depth r = false)
  /\ (In "crs" (missing_fields r) <-> has_crs r = false)
  /\ (In "rotation" (missing_fields r) <-> has_rotation r = false)
  /\ (has_crs r = true <-> detected_crs r <> None)
  /\ (has_rotation r = false -> rotation_degrees r = 0%float).
Proof.
  intros r. subst r.
  destruct (parse_flags fname doc) as (Hc & Hd & Hr & Ha).
  rewrite parse_missing_fields, parse_has_depth, Hc, Hd, Hr, Ha.
  unfold _determine_missing_fields.
  rewrite no_labels_before_classification by apply extract_entities_fresh.
  split; [|split; [|split; [|split; [|split]]]].
  - destruct (_check_depth _), (fst (_detect_crs doc)), (fst (_detect_rotation doc));
      simpl; repeat first [apply sublist_nil | apply sublist_skip
                          | apply sublist_cons].
  - destruct (_check_depth _), (fst (_detect_crs doc)), (fst (_detect_rotation doc));
      simpl; split; intros H; try reflexivity; try discriminate; auto;
      repeat (destruct H as [H | H]; try discriminate H); destruct H.
  - destruct (_check_depth _), (fst (_detect_crs doc)), (fst (_detect_rotation doc));
      simpl; split; intros H; try reflexivity; try discriminate; auto;
      repeat (destruct H as [H | H]; try discriminate H); destruct H.
  - destruct (_check_depth _), (fst (_detect_crs doc)), (fst (_detect_rotation doc));
      simpl; split; intros H; try reflexivity; try discriminate; auto;
      repeat (destruct H as [H | H]; try discriminate H); destruct H.
  - unfold _detect_crs. destruct (geodata doc), (crs_header doc); simpl;
      split; intros H; try reflexivity; try discriminate; congruence.
  - unfold _detect_rotation.
    destruct (ucs_rotation doc) as [rot|];
      [destruct (0.1 <? abs rot)%float|];
      destruct (find_north_arrow (modelspace doc)); simpl;
      intros H; try discriminate; reflexivity.
Qed.


(** *** Classification *)

(** The layer-to-type map after the loop over the layer table. *)
Lemma fold_assign_lookup (lays : list Layer) (n : string) :
  forall m : gmap string string,
    fold_left assign lays m !! n
    = if existsb (fun l => String.eqb (name l) n) lays
      then match first_matching_type ASSET_TYPE_KEYWORDS (upper n) with
           | Some t => Some t
           | None => m !! n
           end
      else m !! n.
Proof.
  induction lays as [|l lays IH]; intros m; [reflexivity|].
  cbn [fold_left existsb]. rewrite IH.
  destruct (String.eqb_spec (name l) n) as [<- | Hne]; cbn [orb].
  - unfold assign.
    destruct (first_matching_type ASSET_TYPE_KEYWORDS (upper (name l))) as [t|].
    + rewrite lookup_insert_eq. destruct (existsb _ lays); reflexivity.
    + destruct (existsb _ lays); reflexivity.
  - rewrite (assign_other m l n Hne). reflexivity.
Qed.

Lemma build_layer_types_lookup (lays : list Layer) (n : string) :
  build_layer_types lays !! n
  = if existsb (fun l => String.eqb (name l) n) lays
    then first_matching_type ASSET_TYPE_KEYWORDS (upper n)
    else None.
Proof.
  unfold build_layer_types. rewrite fold_assign_lookup, lookup_empty.
  destruct (existsb _ lays); [|reflexivity].
  destruct (first_matching_type _ _); reflexivity.
Qed.

Lemma first_matching_type_in_table table s t :
  first_matching_type table s = Some t -> In t (map fst table).
Proof.
  induction table as [|[t0 kws] rest IH]; simpl; [discriminate|].
  destruct (keywords_match kws s); [intros [= ->]; left; reflexivity|].
  intros H. right. apply IH, H.
Qed.

(** X6. Classification returns as many entities as it is given, in the
    same order, and changes nothing of an entity but its suggested type.
    The suggested type is left as it was when the entity's layer is not in
    the layer table, whatever its name.  For a layer with an ASCII name it
    becomes the first matching table type when the layer is listed in the
    layer table and its upper-cased name contains a keyword, and is left as
    it was otherwise. *)
Theorem classification_touches_only_suggested_type
    (lays : list Layer) (ents : list ExtractedEntity) :
  length (_classify_entities ents lays) = length ents
  /\ forall k e, ents !! k = Some e ->
       exists e',
         _classify_entities ents lays !! k = Some e'
         /\ handle e' = handle e /\ entity_type e' = entity_type e
         /\ layer e' = layer e /\ points e' = points e
         /\ properties e' = properties e
         /\ has_depth e' = has_depth e /\ depth_values e' = depth_values e
         /\ (existsb (fun l => String.eqb (name l) (layer e)) lays = false ->
             suggested_type e' = suggested_type e)
         /\ (is_ascii (layer e) = true ->
             suggested_type e'
             = if existsb (fun l => String.eqb (name l) (layer e)) lays
               then match first_matching_type ASSET_TYPE_KEYWORDS (upper (layer e)) with
                    | Some t => Some t
                    | None => suggested_type e
                    end
               else suggested_type e).
Proof.
  split; [apply length_map|].
  intros k e Hk. exists (classify_one (build_layer_types lays) e).
  split; [unfold _classify_entities; rewrite list_lookup_fmap, Hk; reflexivity|].
  destruct (classify_one_fields (build_layer_types lays) e)
    as (H1 & H2 & H3 & H4 & H5 & H6 & H7).
  repeat (split; [assumption|]).
  unfold classify_one. rewrite build_layer_types_lookup. split.
  - intros ->. reflexivity.
  - intros _. destruct (existsb _ lays); [|reflexivity].
    destruct (first_matching_type _ _); reflexivity.
Qed.

Lemma classification_touches_only_suggested_type_witness :
  exists e',
    _classify_entities
      (_extract_entities annotated_drawing) (doc_layers annotated_drawing)
      !! 1%nat = Some e'
    /\ layer e' = "VALVES"
    /\ suggested_type e' = None.
Proof.
  destruct (proj2 (classification_touches_only_suggested_type
                     (doc_layers annotated_drawing)
                     (_extract_entities annotated_drawing))
              1%nat _ eq_refl)
    as (e' & Hk & _ & _ & Hl & _ & _ & _ & _ & Habsent & Hs).
  exists e'. split; [exact Hk|]. split; [exact Hl|].
  rewrite (Hs eq_refl). reflexivity.
Defined.

(** X7. Every suggested type in a parse result is one of the seven types
    of the keyword table, and classifying a second time against the same
    layer table changes nothing. *)
Theorem suggested_types_come_from_table (fname : string) (doc : Drawing) :
  let r := parse fname (Loaded doc) in
  (forall e t, In e (entities r) -> suggested_type e = Some t ->
     In t ["sewer"; "storm"; "potable"; "gas"; "electric"; "telecom"; "fiber"])
  /\ _classify_entities (entities r) (layers r) = entities r.
Proof.
  intros r. subst r. split.
  - intros e t He Ht.
    apply parse_entity_origin in He as (entity & e0 & _ & Hex & ->).
    destruct (extract_single_fresh entity e0 Hex) as (_ & Hnone & _).
    unfold classify_one in Ht. rewrite build_layer_types_lookup in Ht.
    destruct (existsb _ (doc_layers doc)); [|simpl in Ht; congruence].
    destruct (first_matching_type ASSET_TYPE_KEYWORDS (upper (layer e0))) as [t'|] eqn:E;
      [|simpl in Ht; congruence].
    simpl in Ht. injection Ht as <-.
    apply (first_matching_type_in_table _ _ _ E).
  - rewrite parse_entities, parse_layers. unfold _classify_entities, _extract_layers.
    rewrite map_map. apply map_ext. intros e.
    unfold classify_one at 1. rewrite classify_one_layer.
    unfold classify_one.
    destruct (build_layer_types (doc_layers doc) !! layer e); reflexivity.
Qed.

End DwgParserMore.

(** ** Further properties of the vector/feature and tabular adapters *)

Module ExportMore.
Import Py Models Exporters Samples ExportProps.

Lemma round_coord_Some_iff L options (c : list pynum) :
  (exists c', round_coord L options c = Some c') <-> 2 <= length c.
Proof.
  unfold round_coord. destruct c as [|c0 [|c1 rest]]; simpl.
  - split; [intros (c' & H); discriminate H | lia].
  - split; [intros (c' & H); discriminate H | lia].
  - split; [lia | intros _; eexists; reflexivity].
Qed.

Lemma transformed_length L options (c : list float) :
  2 <= length (match _init_transformer L options with
               | Some _ => _transform_coord L options c
               | None => map PyFloat c
               end)
  <-> 2 <= length c.
Proof.
  unfold _transform_coord. destruct (_init_transformer L options) as [tr|].
  - destruct c as [|c0 [|c1 rest]]; simpl; try lia.
    destruct (tr c0 c1). simpl. lia.
  - rewrite length_map. reflexivity.
Qed.

(** X8. The vector adapter omits an asset exactly when the asset has no
    coordinates or one of its coordinates has fewer than two components;
    in every other case it produces a feature. *)
Theorem feature_omitted_iff_no_usable_coordinates
    (L : Library) (options : ExportOptions) (asset : Asset) :
  _asset_to_feature L options asset = None
  <-> _extract_coordinates asset = []
      \/ exists c, In c (_extract_coordinates asset) /\ length c < 2.
Proof.
  unfold _asset_to_feature.
  destruct (_extract_coordinates asset) as [|c0 cs] eqn:Ec.
  - split; [auto | reflexivity].
  - set (coords := c0 :: cs).
    set (prep := fun c : list float =>
                   match _init_transformer L options with
                   | Some _ => _transform_coord L options c
                   | None => map PyFloat c
                   end).
    assert (Hprep : match _init_transformer L options with
                    | Some _ => map (_transform_coord L options) coords
                    | None => map (map PyFloat) coords
                    end = map prep coords)
      by (unfold prep; destruct (_init_transformer L options); reflexivity).
    rewrite Hprep.
    destruct (mapM (round_coord L options) (map prep coords)) as [coords2|] eqn:Em.
    + split; [discriminate|]. intros [H | (c & Hc & Hlen)]; [discriminate H|].
      exfalso. apply mapM_Some_1, Forall2_fmap_l in Em.
      apply list_elem_of_In, list_elem_of_lookup_1 in Hc as (i & Hi).
      destruct (Forall2_lookup_l _ _ _ _ _ Em Hi) as (c' & _ & Hr).
      assert (Hge : 2 <= length (prep c))
        by (apply (proj1 (round_coord_Some_iff L options _)); eauto).
      apply (proj1 (transformed_length L options c)) in Hge. lia.
    + split; [|reflexivity]. intros _. right.
      apply mapM_None_1, Exists_exists in Em as (c' & Hc' & Hnone).
      apply list_elem_of_fmap in Hc' as (c & -> & Hc).
      exists c. split; [apply list_elem_of_In; exact Hc|].
      destruct (le_lt_dec 2 (length c)) as [Hge|Hlt]; [|exact Hlt].
      apply (proj2 (transformed_length L options c)) in Hge.
      apply (proj2 (round_coord_Some_iff L options _)) in Hge as (c'' & Hsome).
      fold (prep c) in Hsome. congruence.
Qed.

(** X9. A feature carries as many coordinates as its asset, in a Point
    geometry exactly when the asset has a single coordinate and in a
    LineString otherwise, and its properties are those computed from the
    asset alone. *)
Theorem feature_geometry_follows_coordinate_count
    (L : Library) (options : ExportOptions) (asset : Asset) (f : Feature) :
  _asset_to_feature L options asset = Some f ->
  length (geometry_coordinates (geometry f)) = length (_extract_coordinates asset)
  /\ ((exists c, geometry f = Point c) <-> length (_extract_coordinates asset) = 1)
  /\ ((exists cs, geometry f = LineString cs) <-> 2 <= length (_extract_coordinates asset))
  /\ f_properties f = feature_properties options asset.
Proof.
  intros Hf.
  pose proof (asset_to_feature_Some L options asset f Hf) as (Hne & Hprops & Hall).
  apply Forall2_length in Hall.
  split; [symmetry; exact Hall|].
  unfold _asset_to_feature in Hf.
  destruct (_extract_coordinates asset) as [|c0 cs]; [congruence|].
  destruct (mapM _ _) as [coords2|]; [|discriminate].
  injection Hf as <-. cbn [geometry] in *.
  rewrite geometry_coordinates_of_list in Hall.
  destruct coords2 as [|d0 [|d1 ds]]; simpl in Hall |- *.
  - discriminate Hall.
  - split; [split; [intros _; lia | intros _; eauto]|].
    split; [split; [intros (x & Hx); discriminate Hx | lia] | reflexivity].
  - split; [split; [intros (x & Hx); discriminate Hx | lia]|].
    split; [split; [intros _; lia | intros _; eauto] | reflexivity].
Qed.

Lemma feature_geometry_follows_coordinate_count_witness :
  exists f,
    _asset_to_feature example_library default_options pipe_3d = Some f
    /\ length (geometry_coordinates (geometry f)) = 2.
Proof.
  eexists. split; [reflexivity|].
  refine (proj1 (feature_geometry_follows_coordinate_count
                   example_library default_options pipe_3d _ eq_refl)).
Defined.

Lemma init_transformer_different_crs L options :
  source_crs options <> target_crs options ->
  _init_transformer L options
  = Some (transform L (source_crs options) (target_crs options)).
Proof.
  intros H. unfold _init_transformer.
  destruct (String.eqb_spec (source_crs options) (target_crs options));
    [contradiction | reflexivity].
Qed.

(** X10. When the source and target reference systems differ, x and y of
    every coordinate are reprojected and then rounded, and a third
    component passes through the reprojection unchanged and is rounded;
    components beyond the third are dropped. *)
Theorem different_crs_reprojects_then_rounds
    (L : Library) (options : ExportOptions) (asset : Asset) (f : Feature) :
  source_crs options <> target_crs options ->
  _asset_to_feature L options asset = Some f ->
  Forall2
    (fun cin cout =>
       exists x y rest,
         cin = x :: y :: rest
         /\ cout
            = [ PyFloat (round_float L
                  (fst (transform L (source_crs options) (target_crs options) x y))
                  (precision options));
                PyFloat (round_float L
                  (snd (transform L (source_crs options) (target_crs options) x y))
                  (precision options));
                match rest with
                | z :: _ => PyFloat (round_float L z (precision options))
                | [] => PyInt 0
                end ])
    (_extract_coordinates asset) (geometry_coordinates (geometry f)).
Proof.
  intros Hcrs Hf.
  apply asset_to_feature_Some in Hf as (_ & _ & Hall).
  pose proof (init_transformer_different_crs L options Hcrs) as Htr.
  rewrite Htr in Hall.
  eapply Forall2_impl; [exact Hall|].
  intros cin cout. unfold _transform_coord. rewrite Htr.
  destruct cin as [|x [|y rest]]; try discriminate.
  destruct (transform L (source_crs options) (target_crs options) x y) as [x' y'] eqn:E.
  unfold round_coord. destruct rest as [|z rest]; cbn -[round_int];
    rewrite ?round_int_zero; intros [= <-].
  - exists x, y, []. rewrite E. split; reflexivity.
  - exists x, y, (z :: rest). rewrite E. split; reflexivity.
Qed.


Lemma different_crs_reprojects_then_rounds_witness :
  exists f,
    _asset_to_feature example_library utm_options pipe_3d = Some f
    /\ length (geometry_coordinates (geometry f)) = 2.
Proof.
  eexists. split; [reflexivity|].
  symmetry.
  refine (Forall2_length _ _ _
            (different_crs_reprojects_then_rounds
               example_library utm_options pipe_3d _ _ eq_refl)).
  discriminate.
Defined.

(** *** Assets without coordinates *)

Lemma omap_skip {A B} (f : A -> option B) (a : A) (before after : list A) :
  f a = None -> omap f (before ++ a :: after) = omap f (before ++ after).
Proof.
  intros Hnone. unfold omap.
  induction before as [|b before IH]; simpl.
  - rewrite Hnone. reflexivity.
  - rewrite IH. reflexivity.
Qed.

Lemma no_coordinates_no_feature L options asset :
  _extract_coordinates asset = [] -> _asset_to_feature L options asset = None.
Proof. intros H. unfold _asset_to_feature. rewrite H. reflexivity. Qed.

Lemma no_coordinates_no_row asset :
  _extract_coordinates asset = [] -> csv_row asset = None.
Proof. intros H. unfold csv_row. rewrite H. reflexivity. Qed.

Lemma no_coordinates_no_mesh L options n asset :
  _extract_coordinates asset = [] -> _asset_to_mesh L options n asset = None.
Proof. intros H. unfold _asset_to_mesh. rewrite H. reflexivity. Qed.

Lemma no_coordinates_no_datum options asset :
  _extract_coordinates asset = [] -> FbxExporter.asset_datum options asset = None.
Proof. intros H. unfold FbxExporter.asset_datum. rewrite H. reflexivity. Qed.

(** X11. An asset without coordinates is passed over by every adapter: the
    result and the files written by the vector, tabular and direct mesh
    adapters, and the result and the calls made by the tool-mediated mesh
    adapter, are those of the same asset list without it, wherever in the
    list it stands. *)
Theorem asset_without_coordinates_is_passed_over
    (L : Library) (options : ExportOptions) (asset : Asset)
    (before after : list Asset) (output_path : string) :
  _extract_coordinates asset = [] ->
  (forall fs_ok,
     geojson_export L options fs_ok (before ++ asset :: after) output_path
     = geojson_export L options fs_ok (before ++ after) output_path)
  /\ (forall fs_ok,
        csv_export fs_ok (before ++ asset :: after) output_path
        = csv_export fs_ok (before ++ after) output_path)
  /\ (forall env,
        gltf_export L options env (before ++ asset :: after) output_path
        = gltf_export L options env (before ++ after) output_path)
  /\ (forall env,
        FbxExporter.export L options env (before ++ asset :: after) output_path
        = FbxExporter.export L options env (before ++ after) output_path).
Proof.
  intros Hnone. split; [|split; [|split]].
  - intros fs_ok. unfold geojson_export, collect_features.
    rewrite (omap_skip _ asset before after
               (no_coordinates_no_feature L options asset Hnone)).
    reflexivity.
  - intros fs_ok. unfold csv_export.
    rewrite (omap_skip _ asset before after (no_coordinates_no_row asset Hnone)).
    reflexivity.
  - intros env. unfold gltf_export, collect_meshes.
    rewrite (omap_skip _ asset before after
               (no_coordinates_no_mesh L options 8 asset Hnone)).
    reflexivity.
  - intros env.
    unfold FbxExporter.export, FbxExporter._export_with_blender,
      FbxExporter._export_fallback, collect_meshes.
    rewrite (omap_skip _ asset before after
               (no_coordinates_no_mesh L options 12 asset Hnone)).
    rewrite (omap_skip _ asset before after
               (no_coordinates_no_datum options asset Hnone)).
    reflexivity.
Qed.

Lemma asset_without_coordinates_is_passed_over_witness :
  geojson_export example_library default_options true
    [pipe_3d; unplaced_asset; pipe_2d] "out/site.geojson"
  = geojson_export example_library default_options true
      [pipe_3d; pipe_2d] "out/site.geojson".
Proof.
  apply (proj1 (asset_without_coordinates_is_passed_over
                  example_library default_options unplaced_asset
                  [pipe_3d] [pipe_2d] "out/site.geojson" eq_refl)).
Defined.


(** *** The tabular adapter *)

Lemma omap_length_le {A B} (f : A -> option B) (l : list A) :
  length (omap f l) <= length l.
Proof.
  unfold omap. induction l as [|a l IH]; simpl; [lia|].
  destruct (f a); simpl; lia.
Qed.

Lemma csv_row_Some asset row :
  csv_row asset = Some row ->
  exists start more,
    _extract_coordinates asset = start :: more
    /\ length row = 13
    /\ row !! 4%nat = Some (CNum (component_or_zero start 1))
    /\ row !! 5%nat = Some (CNum (component_or_zero start 0))
    /\ row !! 6%nat = Some (CNum (depth_cell start (depth_start asset)))
    /\ row !! 7%nat = Some (CNum (component_or_zero (List.last more start) 1))
    /\ row !! 8%nat = Some (CNum (component_or_zero (List.last more start) 0))
    /\ row !! 9%nat = Some (CNum (depth_cell (List.last more start) (depth_end asset))).
Proof.
  unfold csv_row. destruct (_extract_coordinates asset) as [|start more]; [discriminate|].
  intros [= <-]. exists start, more. repeat (split; [reflexivity|]). reflexivity.
Qed.

(** X12. The tabular adapter writes the fixed header and at most one row
    per asset; every row has as many cells as the header.  In a row the
    latitude cell holds the y and the longitude cell the x of the first
    coordinate; the start depth is the coordinate's own z whenever it has
    one, whatever depth is stored; and an asset with a single coordinate
    repeats its start latitude and longitude as end latitude and
    longitude. *)
Theorem csv_rows_follow_header (assets : list Asset) (output_path : string) :
  exists rows,
    csv_export true assets output_path
    = (true, [(output_path, (csv_header, rows))])
    /\ length rows <= length assets
    /\ Forall (fun row => length row = length csv_header) rows
    /\ forall row, In row rows ->
         exists asset start more,
           In asset assets
           /\ _extract_coordinates asset = start :: more
           /\ row !! 4%nat = Some (CNum (component_or_zero start 1))
           /\ row !! 5%nat = Some (CNum (component_or_zero start 0))
           /\ (forall z, start !! 2%nat = Some z ->
                 row !! 6%nat = Some (CNum (PyFloat z)))
           /\ (more = [] -> row !! 7%nat = row !! 4%nat
                            /\ row !! 8%nat = row !! 5%nat).
Proof.
  exists (omap csv_row assets). split; [reflexivity|].
  split; [apply omap_length_le|]. split.
  - apply Forall_forall. intros row Hrow.
    apply list_elem_of_omap in Hrow as (asset & _ & Hrow).
    apply csv_row_Some in Hrow as (start & more & _ & Hlen & _). exact Hlen.
  - intros row Hrow.
    apply list_elem_of_In, list_elem_of_omap in Hrow as (asset & Hasset & Hrow).
    apply csv_row_Some in Hrow
      as (start & more & Hc & _ & H4 & H5 & H6 & H7 & H8 & _).
    exists asset, start, more.
    split; [apply list_elem_of_In; exact Hasset|]. split; [exact Hc|].
    split; [exact H4|]. split; [exact H5|]. split.
    + intros z Hz. rewrite H6. unfold depth_cell. rewrite Hz. reflexivity.
    + intros ->. simpl in H7, H8. rewrite H4, H5, H7, H8. auto.
Qed.

End ExportMore.

(** ** Further properties of solid generation *)

Module MeshMore.
Import Py Models Exporters FloatFacts Samples ExportProps MeshProps.

(** *** Colours *)

Lemma short_slice_empty (h : string) :
  String.length h <= 4 -> slice 4 6 h = "".
Proof.
  unfold slice.
  destruct h as [|c0 [|c1 [|c2 [|c3 [|c4 h]]]]]; simpl; try reflexivity. lia.
Qed.

Lemma hex_to_rgba_short (c : string) :
  String.length (lstrip "#" c) <= 4 -> _hex_to_rgba c = None.
Proof.
  intros Hlen. unfold _hex_to_rgba. rewrite (short_slice_empty _ Hlen).
  destruct (PyInt.int16 (slice 0 2 _)); [|reflexivity].
  destruct (PyInt.int16 (slice 2 4 _)); reflexivity.
Qed.

(** X13. The colour an asset without a colour of its own is drawn in (the
    entry of the colour table for its type, grey without a type) always
    parses, to three channels between 0 and 255 and an opaque alpha.  A
    colour with fewer than five characters after the leading '#', such as
    #FFF, does not parse, and the asset then contributes no mesh whatever
    its geometry. *)
Theorem default_colours_parse_short_colours_fail
    (L : Library) (options : ExportOptions) (n : nat) (asset : Asset) :
  (color asset = None \/ color asset = Some "" ->
   exists r g b,
     _hex_to_rgba (display_color asset) = Some [r; g; b; 255%Z]
     /\ (0 <= r <= 255)%Z /\ (0 <= g <= 255)%Z /\ (0 <= b <= 255)%Z)
  /\ (forall c,
        color asset = Some c -> c <> "" ->
        String.length (lstrip "#" c) <= 4 ->
        _asset_to_mesh L options n asset = None).
Proof.
  split.
  - intros Hc. unfold display_color.
    assert (Hd : or_str (color asset) (ASSET_TYPE_COLORS_get (asset_type asset))
                 = ASSET_TYPE_COLORS_get (asset_type asset))
      by (destruct Hc as [-> | ->]; reflexivity).
    rewrite Hd.
    destruct (asset_type asset) as [[]|]; vm_compute;
      do 3 eexists; (split; [reflexivity|]); repeat split; discriminate.
  - intros c Hc Hne Hlen. unfold _asset_to_mesh.
    destruct (Nat.ltb _ 2); [reflexivity|].
    assert (Hd : display_color asset = c).
    { unfold display_color. rewrite Hc. destruct c; [congruence | reflexivity]. }
    rewrite Hd, (hex_to_rgba_short c Hlen). reflexivity.
Qed.


Lemma default_colours_parse_short_colours_fail_witness :
  _asset_to_mesh example_library default_options 8 white_riser = None.
Proof.
  apply (proj2 (default_colours_parse_short_colours_fail
                  example_library default_options 8 white_riser) "#FFF").
  - reflexivity.
  - discriminate.
  - simpl. lia.
Defined.

(** *** Segments *)

Lemma np_cross_z_three (d axis : vec) :
  np_cross_z d = Some axis -> length d = 3 /\ length axis = 3.
Proof.
  destruct d as [|d0 [|d1 [|d2 [|d3 d]]]]; simpl; try discriminate.
  intros [= <-]. auto.
Qed.

(** What [_create_cylinder] guarantees of a cylinder it returns. *)
Lemma create_cylinder_Some L n (start end_ : vec) (r : float) (cyl : Cylinder) :
  _create_cylinder L n start end_ r = Some (Some cyl) ->
  radius cyl = r
  /\ sections cyl = n
  /\ (height cyl <? 0.001)%float = false
  /\ length (translation cyl) = 3
  /\ (forall angle axis, rotation cyl = Some (angle, axis) -> length axis = 3).
Proof.
  unfold _create_cylinder.
  destruct (np_binary PrimFloat.sub end_ start) as [direction|] eqn:Ed; [|discriminate].
  destruct (np_norm direction <? 0.001)%float eqn:Elen; [discriminate|].
  destruct (np_cross_z _) as [axis0|] eqn:Ec; [|discriminate].
  destruct (np_binary PrimFloat.add start end_) as [sum|] eqn:Es; [|discriminate].
  intros [= <-]. cbn [radius sections height translation rotation].
  apply np_cross_z_three in Ec as [Hd Hax]. unfold np_scale in Hd, Hax.
  rewrite length_map in Hd.
  split; [reflexivity|]. split; [reflexivity|]. split; [exact Elen|]. split.
  - unfold np_scale. rewrite length_map.
    assert (Hsame : length sum = length direction).
    { unfold np_binary in Ed, Es.
      destruct end_ as [|y [|y' end_]], start as [|x [|x' start]];
        simpl in Ed, Es;
        try (injection Ed as <-; injection Es as <-; simpl;
             rewrite ?length_map; reflexivity);
        try discriminate.
      rewrite Nat.eqb_sym in Es.
      destruct (Nat.eqb (length end_) (length start)); [|discriminate].
      injection Ed as <-. injection Es as <-. simpl.
      rewrite !length_zip_with. lia. }
    rewrite Hsame. exact Hd.
  - intros angle axis. destruct (0.001 <? np_norm axis0)%float; [|discriminate].
    intros [= _ <-]. unfold np_scale. rewrite length_map. exact Hax.
Qed.


Lemma segments_of_Some L options n asset r colour (coords : list vec) segs :
  segments_of L options n asset r colour coords = Some segs ->
  length segs <= length coords - 1
  /\ Forall (fun seg : Segment =>
               snd seg = colour
               /\ radius (fst seg) = r
               /\ sections (fst seg) = n
               /\ (height (fst seg) <? 0.001)%float = false
               /\ length (translation (fst seg)) = 3
               /\ (forall angle axis, rotation (fst seg) = Some (angle, axis) ->
                                      length axis = 3))
            segs.
Proof.
  revert segs. induction coords as [|p [|q rest] IH]; intros segs.
  - intros [= <-]. simpl. split; [lia | constructor].
  - intros [= <-]. simpl. split; [lia | constructor].
  - rewrite segments_of_step.
    destruct (_create_cylinder L n _ _ r) as [segment|] eqn:Ec; [|discriminate].
    destruct (segments_of L options n asset r colour (q :: rest)) as [segments|];
      [|discriminate].
    destruct (IH segments eq_refl) as [Hlen Hall]. simpl in Hlen.
    destruct segment as [cyl|]; intros [= <-].
    + split; [simpl; lia|]. constructor; [|exact Hall].
      split; [reflexivity|]. apply (create_cylinder_Some L n _ _ r cyl Ec).
    + split; [simpl; lia | exact Hall].
Qed.

(** X14. A mesh generated for an asset has at least one segment and at
    most one per consecutive pair of coordinates.  All its segments carry
    the parsed colour of the asset, the radius (diameter or default
    diameter) / 2 and the requested number of sections; none is shorter
    than 0.001; every translation and every rotation axis has three
    components. *)
Theorem mesh_segments_are_uniform
    (L : Library) (options : ExportOptions) (n : nat) (asset : Asset) (m : Mesh) :
  _asset_to_mesh L options n asset = Some m ->
  1 <= length m <= length (_extract_coordinates asset) - 1
  /\ exists colour,
       _hex_to_rgba (display_color asset) = Some colour
       /\ Forall (fun seg : Segment =>
                    snd seg = colour
                    /\ radius (fst seg)
                       = (or_float (diameter asset) (default_diameter options) / 2)%float
                    /\ sections (fst seg) = n
                    /\ (height (fst seg) <? 0.001)%float = false
                    /\ length (translation (fst seg)) = 3
                    /\ (forall angle axis,
                          rotation (fst seg) = Some (angle, axis) -> length axis = 3))
                 m.
Proof.
  unfold _asset_to_mesh.
  destruct (Nat.ltb _ 2); [discriminate|].
  destruct (_hex_to_rgba (display_color asset)) as [colour|]; [|discriminate].
  destruct (segments_of _ _ _ _ _ _ _) as [[|s segs]|] eqn:Es; try discriminate.
  intros [= <-].
  apply segments_of_Some in Es as [Hlen Hall].
  change (length (s :: segs)) with (S (length segs)) in *.
  split; [split; [lia | exact Hlen]|]. exists colour. split; [reflexivity | exact Hall].
Qed.

Lemma mesh_segments_are_uniform_witness :
  exists m,
    _asset_to_mesh example_library default_options 8 pipe_3d = Some m
    /\ 1 <= length m <= 1.
Proof.
  eexists. split; [reflexivity|].
  refine (proj1 (mesh_segments_are_uniform
                   example_library default_options 8 pipe_3d _ eq_refl)).
Defined.

Lemma segments_of_error L options n asset r colour (coords : list vec) :
  (exists i p q,
      coords !! i = Some p /\ coords !! S i = Some q
      /\ _create_cylinder L n (with_depth options p (depth_start asset))
                               (with_depth options q (depth_end asset)) r = None) ->
  segments_of L options n asset r colour coords = None.
Proof.
  induction coords as [|p0 [|q0 rest] IH]; intros (i & p & q & Hp & Hq & Hc).
  - rewrite lookup_nil in Hp. discriminate.
  - simpl in Hq. discriminate.
  - rewrite segments_of_step. destruct i as [|i].
    + injection Hp as <-. injection Hq as <-. rewrite Hc. reflexivity.
    + destruct (_create_cylinder L n (with_depth options p0 (depth_start asset))
                  (with_depth options q0 (depth_end asset)) r); [|reflexivity].
      rewrite IH; [reflexivity|]. exists i, p, q. auto.
Qed.

Lemma np_binary_mismatch f (a b : vec) :
  length a <> length b -> length a <> 1 -> length b <> 1 ->
  np_binary f a b = None.
Proof.
  intros Hab Ha Hb. unfold np_binary.
  destruct a as [|x [|x' a]], b as [|y [|y' b]]; simpl in *; try congruence.
  destruct (Nat.eqb_spec (length a) (length b)); [congruence | reflexivity].
Qed.

(** X15. One pair of consecutive points whose component counts (after the
    depth has been appended to 2-component points) differ, neither being
    1, makes the segment arithmetic raise, and the asset then contributes
    no mesh at all, its other segments included. *)
Theorem mismatched_points_discard_the_asset
    (L : Library) (options : ExportOptions) (n : nat) (asset : Asset)
    (i : nat) (p q : vec) :
  _extract_coordinates asset !! i = Some p ->
  _extract_coordinates asset !! S i = Some q ->
  length (with_depth options p (depth_start asset))
    <> length (with_depth options q (depth_end asset)) ->
  length (with_depth options p (depth_start asset)) <> 1 ->
  length (with_depth options q (depth_end asset)) <> 1 ->
  _asset_to_mesh L options n asset = None.
Proof.
  intros Hp Hq Hne Hp1 Hq1. unfold _asset_to_mesh.
  destruct (Nat.ltb _ 2); [reflexivity|].
  destruct (_hex_to_rgba _) as [colour|]; [|reflexivity].
  rewrite segments_of_error; [reflexivity|].
  exists i, p, q. split; [exact Hp|]. split; [exact Hq|].
  unfold _create_cylinder.
  rewrite np_binary_mismatch; [reflexivity | congruence | exact Hq1 | exact Hp1].
Qed.

Lemma mismatched_points_discard_the_asset_witness :
  _asset_to_mesh example_library default_options 8 ragged_pipe = None.
Proof.
  apply (mismatched_points_discard_the_asset
           example_library default_options 8 ragged_pipe 0
           [0; 0; -1]%float [9; 0; -1; 7]%float);
    solve [reflexivity | simpl; lia].
Defined.

End MeshMore.

(** ** Further properties of the tool-mediated mesh adapter *)

Module FbxMore.
Import Py Models Exporters FbxExporter Samples ExportProps MeshProps MeshMore.

(** *** What the tool-mediated path does not check *)

Lemma single_point_no_mesh L options n asset :
  length (_extract_coordinates asset) = 1 -> _asset_to_mesh L options n asset = None.
Proof. intros H. unfold _asset_to_mesh. rewrite H. reflexivity. Qed.

Lemma single_points_no_meshes L options n assets :
  Forall (fun a => length (_extract_coordinates a) = 1) assets ->
  collect_meshes L options n assets = [].
Proof.
  unfold collect_meshes, omap. induction 1 as [|asset assets H1 _ IH]; simpl.
  - reflexivity.
  - rewrite (single_point_no_mesh L options n asset H1). exact IH.
Qed.

(** X17. For a non-empty asset set in which every asset has a single
    coordinate, so that no pipe segment can be built, the tool-mediated
    path (tool found, exit status 0) reports success, while the direct
    mesh adapter and the fallback report failure and write nothing on the
    same assets: the tool-mediated path checks that some asset has
    coordinates, not that a solid results. *)
Theorem tool_path_succeeds_without_solids
    (L : Library) (options : ExportOptions) (env : FbxEnv)
    (assets : list Asset) (output_path tool : string) :
  assets <> [] ->
  Forall (fun a => length (_extract_coordinates a) = 1) assets ->
  blender_path env = Some tool ->
  blender_run env = Exited 0 ->
  fst (export L options env assets output_path) = true
  /\ _export_fallback L options env assets output_path = (false, [])
  /\ forall menv, gltf_export L options menv assets output_path = (false, []).
Proof.
  intros Hne Hone Htool Hrun. split; [|split].
  - unfold export. rewrite Htool. unfold _export_with_blender. rewrite Hrun.
    destruct assets as [|asset assets]; [congruence|].
    apply Forall_cons in Hone as [H1 _].
    unfold omap. cbn [mbind option_bind list_omap]. unfold asset_datum at 1.
    destruct (_extract_coordinates asset); [discriminate H1 | reflexivity].
  - unfold _export_fallback.
    rewrite (single_points_no_meshes L options 12 assets Hone).
    destruct (negb _); reflexivity.
  - intros menv. unfold gltf_export.
    rewrite (single_points_no_meshes L options 8 assets Hone).
    destruct (negb _); reflexivity.
Qed.


Lemma tool_path_succeeds_without_solids_witness :
  fst (export example_library default_options env_tool_ok [manhole] "out/site.fbx")
  = true
  /\ _export_fallback example_library default_options env_tool_ok
       [manhole] "out/site.fbx" = (false, []).
Proof.
  destruct (tool_path_succeeds_without_solids
              example_library default_options env_tool_ok [manhole]
              "out/site.fbx" "/usr/bin/blender")
    as (Hok & Hfallback & _).
  - discriminate.
  - constructor; [reflexivity | constructor].
  - reflexivity.
  - reflexivity.
  - split; assumption.
Defined.

(** *** The path of the degraded file *)

Lemma replace_from_absent (old new s : string) :
  str_in old s = false -> replace_from old new s 0 = s.
Proof.
  induction s as [|c s IH]; intros H; [reflexivity|].
  change (str_in old (String c s))
    with (if String.prefix old (String c s) then true else str_in old s) in H.
  change (replace_from old new (String c s) 0)
    with (if String.prefix old (String c s)
          then String.append new (replace_from old new s (String.length old - 1))
          else String c (replace_from old new s 0)).
  destruct (String.prefix old (String c s)); [discriminate H|].
  rewrite (IH H). reflexivity.
Qed.

(** X18. When the requested output path does not contain ".fbx" (an
    upper-case extension, for instance), the path computed for the
    degraded file is the requested path itself: with at least one mesh
    generated and the FBX export raising, the fallback asks the mesh
    library to export to the very same path a second time, now without a
    file type, and returns true exactly when this second call does not
    raise. *)
Theorem degraded_export_repeats_requested_path
    (L : Library) (options : ExportOptions) (env : FbxEnv)
    (assets : list Asset) (output_path : string) (m : Mesh) (ms : list Mesh) :
  str_in ".fbx" output_path = false ->
  FbxExporter.trimesh_installed env = true ->
  collect_meshes L options 12 assets = m :: ms ->
  trimesh_export env output_path (Some "fbx") = false ->
  _export_fallback L options env assets output_path
  = (trimesh_export env output_path None,
     [Mkdir output_path;
      MeshExport output_path (Some "fbx") (concat (m :: ms));
      MeshExport output_path None (concat (m :: ms))]).
Proof.
  intros Habsent Ht Hm Hf. unfold _export_fallback.
  rewrite Ht, Hm, Hf. unfold replace.
  rewrite (replace_from_absent _ _ _ Habsent).
  destruct (trimesh_export env output_path None); reflexivity.
Qed.

Lemma degraded_export_repeats_requested_path_witness :
  exists mesh,
    _export_fallback example_library default_options env_no_tool
      [pipe_3d] "out/SITE.FBX"
    = (false, [Mkdir "out/SITE.FBX"; MeshExport "out/SITE.FBX" (Some "fbx") mesh;
               MeshExport "out/SITE.FBX" None mesh]).
Proof.
  eexists.
  refine (degraded_export_repeats_requested_path
            example_library default_options env_no_tool [pipe_3d] "out/SITE.FBX"
            _ [] eq_refl eq_refl _ eq_refl).
  vm_compute. reflexivity.
Defined.

End FbxMore.

(** ** The generation script and the preview generator *)

Module ScriptAndPreview.
Import Py DwgParser Models Exporters Thumbnail Samples FloatOrder DwgParserProps
       DwgParserMore.

(** *** More facts on binary64 numbers *)

Lemma sub_self_zero (x : float) :
  is_finite x = true -> (x - x =? 0)%float = true.
Proof.
  unfold is_finite, is_nan, is_infinity.
  rewrite !FloatAxioms.eqb_spec, FloatAxioms.sub_spec, FloatAxioms.abs_spec.
  destruct (Prim2SF x) as [s|s| |s m e] eqn:E.
  - intros _. destruct s; reflexivity.
  - destruct s; vm_compute; discriminate.
  - vm_compute. discriminate.
  - intros _. unfold SF64sub, SFsub.
    rewrite Z.min_id, Z.sub_diag. reflexivity.
Qed.

Lemma nonneg_opp_not_positive (d : float) :
  (d <? 0)%float = false -> (0 <? - d)%float = false.
Proof.
  rewrite !FloatAxioms.ltb_spec, FloatAxioms.opp_spec.
  destruct (Prim2SF d) as [s|s| |s m e]; try (destruct s); vm_compute; congruence.
Qed.

Lemma opp_abs_not_positive (z : float) : (0 <? - abs z)%float = false.
Proof.
  rewrite FloatAxioms.ltb_spec, FloatAxioms.opp_spec, FloatAxioms.abs_spec.
  destruct (Prim2SF z) as [s|s| |s m e]; reflexivity.
Qed.

(** *** Points in the generation script *)

(** X19. In the generation script a point with at least two components
    becomes a 3-component point with the same x and y; its z is
    [-abs(z)] when the point has a non-zero z and [-depth] otherwise, a
    3-component point at z = 0 included; with a depth that is not
    negative the resulting z is never positive.  The mesh-library path
    of the same adapter leaves the z of a 3-component point as it is. *)
Theorem script_points_lie_below_ground (p : list float) (depth : float) :
  (depth <? 0)%float = false ->
  2 <= length p ->
  (exists x y z',
     BlenderScript.script_point p depth = [x; y; z']
     /\ p !! 0%nat = Some x /\ p !! 1%nat = Some y
     /\ (0 <? z')%float = false
     /\ z' = match p !! 2%nat with
             | Some z => if (z =? 0)%float then (- depth)%float else (- abs z)%float
             | None => (- depth)%float
             end)
  /\ (forall options d, length p = 3 -> with_depth options p d = p).
Proof.
  intros Hdepth Hlen. split.
  - destruct p as [|x [|y [|z rest]]]; simpl in Hlen; try lia.
    + exists x, y, (- depth)%float. simpl.
      repeat (split; [reflexivity|]). split; [|reflexivity].
      apply nonneg_opp_not_positive, Hdepth.
    + exists x, y, (if negb (z =? 0)%float then (- abs z)%float else (- depth)%float).
      simpl. repeat (split; [reflexivity|]).
      destruct (z =? 0)%float; simpl; split;
        try reflexivity;
        [apply nonneg_opp_not_positive, Hdepth | apply opp_abs_not_positive].
  - intros options d H3. unfold with_depth. rewrite H3. reflexivity.
Qed.

Lemma script_points_lie_below_ground_witness :
  BlenderScript.script_point [3; 4; 2.5]%float 1.5%float = [3; 4; -2.5]%float
  /\ with_depth default_options [3; 4; 2.5]%float None = [3; 4; 2.5]%float.
Proof.
  destruct (script_points_lie_below_ground [3; 4; 2.5]%float 1.5%float)
    as [(x & y & z' & Hs & _) Hkeep].
  - reflexivity.
  - simpl. lia.
  - split; [reflexivity | apply Hkeep; reflexivity].
Defined.


(** *** Preview colours *)

Lemma parse_suggested_type_in_table fname doc e t :
  In e (entities (parse fname (Loaded doc))) ->
  suggested_type e = Some t ->
  In t (map fst ASSET_TYPE_KEYWORDS).
Proof.
  intros He Ht.
  apply parse_entity_origin in He as (entity & e0 & _ & Hex & ->).
  destruct (extract_single_fresh entity e0 Hex) as (_ & Hnone & _).
  unfold classify_one in Ht. rewrite build_layer_types_lookup in Ht.
  destruct (existsb _ (doc_layers doc)); [|simpl in Ht; congruence].
  destruct (first_matching_type ASSET_TYPE_KEYWORDS (upper (layer e0))) as [t'|] eqn:E;
    [|simpl in Ht; congruence].
  simpl in Ht. injection Ht as <-.
  apply (first_matching_type_in_table _ _ _ E).
Qed.

(** X20. In the preview an entity of a parse result is drawn in the
    default line colour exactly when it is unclassified; a classified
    entity is drawn in the colour of its type, which is the colour the
    export adapters use for assets of that type. *)
Theorem preview_colour_is_export_colour
    (options : ThumbnailOptions) (fname : string) (doc : Drawing)
    (e : ExtractedEntity) :
  In e (entities (parse fname (Loaded doc))) ->
  (suggested_type e = None -> entity_color options e = default_line_color options)
  /\ (forall s, suggested_type e = Some s ->
        exists t, t <> UNKNOWN /\ value t = s
                  /\ entity_color options e = ASSET_TYPE_COLORS_get (Some t)).
Proof.
  intros He. split.
  - intros Hnone. unfold entity_color. rewrite Hnone. reflexivity.
  - intros s Hs.
    pose proof (parse_suggested_type_in_table fname doc e s He Hs) as Hin.
    unfold entity_color. rewrite Hs. simpl in Hin.
    destruct Hin as [<-|[<-|[<-|[<-|[<-|[<-|[<-|[]]]]]]]].
    + exists SEWER. split; [discriminate | split; reflexivity].
    + exists STORM. split; [discriminate | split; reflexivity].
    + exists POTABLE. split; [discriminate | split; reflexivity].
    + exists GAS. split; [discriminate | split; reflexivity].
    + exists ELECTRIC. split; [discriminate | split; reflexivity].
    + exists TELECOM. split; [discriminate | split; reflexivity].
    + exists FIBER. split; [discriminate | split; reflexivity].
Qed.

Lemma preview_colour_is_export_colour_witness :
  exists e,
    In e (entities (parse "plan.dxf" (Loaded annotated_drawing)))
    /\ suggested_type e = Some "potable"
    /\ entity_color default_thumbnail_options e = "#00CED1".
Proof.
  eexists. split; [left; reflexivity|]. split; [reflexivity|].
  match goal with
  | |- entity_color _ ?e = _ =>
      destruct (proj2 (preview_colour_is_export_colour default_thumbnail_options
                         "plan.dxf" annotated_drawing e
                         (or_introl eq_refl)) "potable" eq_refl)
        as (t & _ & _ & Hcolour)
  end.
  reflexivity.
Defined.


(** *** Drawings without a preview *)

(** Each bound of a parse is the coordinate of one of its points. *)
Lemma parse_bounds_attained fname doc (min_x min_y max_x max_y : float) :
  bounds (parse fname (Loaded doc)) = Some (min_x, min_y, max_x, max_y) ->
  (exists e p, In e (entities (parse fname (Loaded doc))) /\ In p (points e)
               /\ fst (fst p) = min_x)
  /\ (exists e p, In e (entities (parse fname (Loaded doc))) /\ In p (points e)
                  /\ fst (fst p) = max_x)
  /\ (exists e p, In e (entities (parse fname (Loaded doc))) /\ In p (points e)
                  /\ snd (fst p) = min_y)
  /\ (exists e p, In e (entities (parse fname (Loaded doc))) /\ In p (points e)
                  /\ snd (fst p) = max_y).
Proof.
  intros Hb. rewrite parse_bounds, calculate_bounds_points in Hb.
  assert (Hpts : forall p, In p (flat_map points (_extract_entities doc)) ->
                   exists e, In e (entities (parse fname (Loaded doc)))
                             /\ In p (points e))
    by (intros p; apply parse_points).
  destruct (flat_map points (_extract_entities doc)) as [|p0 ps]; [discriminate|].
  injection Hb as <- <- <- <-.
  assert (Hback : forall (f : point -> float) v,
             In v (f p0 :: map f ps) ->
             exists e p, In e (entities (parse fname (Loaded doc)))
                         /\ In p (points e) /\ f p = v).
  { intros f v Hv. apply (in_map_iff f (p0 :: ps) v) in Hv as (p & <- & Hp).
    destruct (Hpts p Hp) as (e & He & Hpe). exists e, p. auto. }
  split; [|split; [|split]].
  - apply (Hback (fun q => fst (fst q))), py_min_spec.
  - apply (Hback (fun q => fst (fst q))), py_max_spec.
  - apply (Hback (fun q => snd (fst q))), py_min_spec.
  - apply (Hback (fun q => snd (fst q))), py_max_spec.
Qed.

(** X21. No preview is generated for a parsed drawing from which no
    entity was extracted, nor for one whose points all share the same
    finite x or all share the same finite y (a single vertical or
    horizontal line, a lone circle): the extent is zero in one direction
    and [generate] returns [False] before drawing. *)
Theorem no_preview_without_extent
    (options : ThumbnailOptions) (render_ok : bool) (fname : string) (doc : Drawing) :
  let r := parse fname (Loaded doc) in
  (entities r = [] -> generate options render_ok r = false)
  /\ (forall x0, is_finite x0 = true ->
        (forall e p, In e (entities r) -> In p (points e) -> fst (fst p) = x0) ->
        generate options render_ok r = false)
  /\ (forall y0, is_finite y0 = true ->
        (forall e p, In e (entities r) -> In p (points e) -> snd (fst p) = y0) ->
        generate options render_ok r = false).
Proof.
  intros r. subst r. split; [|split].
  - intros Hnone. unfold generate, _calculate_transform.
    rewrite parse_bounds, calculate_bounds_points.
    rewrite parse_entities in Hnone. unfold _classify_entities in Hnone.
    apply map_eq_nil in Hnone. rewrite Hnone. reflexivity.
  - intros x0 Hfin Hall. unfold generate, _calculate_transform.
    destruct (bounds (parse fname (Loaded doc))) as [[[[min_x min_y] max_x] max_y]|] eqn:Hb;
      [|reflexivity].
    destruct (parse_bounds_attained fname doc _ _ _ _ Hb)
      as ((e1 & p1 & He1 & Hp1 & Hmin) & (e2 & p2 & He2 & Hp2 & Hmax) & _).
    rewrite <- Hmin, <- Hmax, (Hall e1 p1 He1 Hp1), (Hall e2 p2 He2 Hp2).
    rewrite (sub_self_zero x0 Hfin). reflexivity.
  - intros y0 Hfin Hall. unfold generate, _calculate_transform.
    destruct (bounds (parse fname (Loaded doc))) as [[[[min_x min_y] max_x] max_y]|] eqn:Hb;
      [|reflexivity].
    destruct (parse_bounds_attained fname doc _ _ _ _ Hb)
      as (_ & _ & (e1 & p1 & He1 & Hp1 & Hmin) & (e2 & p2 & He2 & Hp2 & Hmax)).
    rewrite <- Hmin, <- Hmax, (Hall e1 p1 He1 Hp1), (Hall e2 p2 He2 Hp2).
    rewrite (sub_self_zero y0 Hfin), orb_true_r. reflexivity.
Qed.

Lemma no_preview_without_extent_witness :
  generate default_thumbnail_options true
    (parse "north.dxf" (Loaded northbound_drawing)) = false.
Proof.
  apply (proj1 (proj2 (no_preview_without_extent default_thumbnail_options true
                         "north.dxf" northbound_drawing)) 250%float).
  - reflexivity.
  - intros e p [<- | []] [<- | [<- | []]]; reflexivity.
Defined.

End ScriptAndPreview.

(** ** Across the adapters, and the detection of the rotation *)

Module AcrossModules.
Import Py DwgParser Models Exporters FbxExporter Samples.

Lemma omap_all_none {A B} (f : A -> option B) (l : list A) :
  Forall (fun a => f a = None) l -> omap f l = [].
Proof.
  unfold omap. induction 1 as [|a l Ha _ IH]; simpl; [reflexivity|].
  rewrite Ha. exact IH.
Qed.

(** X22. On an asset set without any coordinates, the empty set included,
    the vector and the tabular adapter report success and write an empty
    feature collection and a header without rows, whereas the direct and
    the tool-mediated mesh adapter report failure, the former writing
    nothing and the latter making no call. *)
Theorem only_mesh_adapters_refuse_empty_output
    (L : Library) (options : ExportOptions) (assets : list Asset)
    (output_path : string) :
  Forall (fun a => _extract_coordinates a = []) assets ->
  geojson_export L options true assets output_path
  = (true, [(output_path,
             {| features := []; crs := target_crs options; asset_count := 0 |})])
  /\ csv_export true assets output_path
     = (true, [(output_path, (csv_header, []))])
  /\ (forall env, gltf_export L options env assets output_path = (false, []))
  /\ (forall env, export L options env assets output_path = (false, [])).
Proof.
  intros Hnone.
  assert (Hf : collect_features L options assets = []).
  { apply omap_all_none. eapply Forall_impl; [exact Hnone|].
    intros a Ha. unfold _asset_to_feature. rewrite Ha. reflexivity. }
  assert (Hr : omap csv_row assets = []).
  { apply omap_all_none. eapply Forall_impl; [exact Hnone|].
    intros a Ha. unfold csv_row. rewrite Ha. reflexivity. }
  assert (Hm : forall n, collect_meshes L options n assets = []).
  { intros n. apply omap_all_none. eapply Forall_impl; [exact Hnone|].
    intros a Ha. unfold _asset_to_mesh. rewrite Ha. reflexivity. }
  assert (Hd : omap (asset_datum options) assets = []).
  { apply omap_all_none. eapply Forall_impl; [exact Hnone|].
    intros a Ha. unfold asset_datum. rewrite Ha. reflexivity. }
  split; [unfold geojson_export; rewrite Hf; reflexivity|].
  split; [unfold csv_export; rewrite Hr; reflexivity|].
  split.
  - intros env. unfold gltf_export. rewrite Hm. destruct (negb _); reflexivity.
  - intros env. unfold export, _export_with_blender, _export_fallback.
    rewrite Hm, Hd. destruct (blender_path env); [reflexivity|].
    destruct (negb _); reflexivity.
Qed.

Lemma only_mesh_adapters_refuse_empty_output_witness :
  fst (geojson_export example_library default_options true
         [unplaced_asset] "out/site") = true
  /\ fst (gltf_export example_library default_options env_ok
            [unplaced_asset] "out/site") = false.
Proof.
  destruct (only_mesh_adapters_refuse_empty_output
              example_library default_options [unplaced_asset] "out/site")
    as (Hvector & _ & Hmesh & _).
  - constructor; [reflexivity | constructor].
  - rewrite Hvector, Hmesh. split; reflexivity.
Defined.

End AcrossModules.
